(** * Brokerlog ZMQ: the publishing core of ngx_http_brokerlog_zmq.c

    A shallow embedding of the five functions of
    [src/ngx_http_brokerlog_zmq.c] and the properties of its frame
    building and of its context / socket life cycle.

    Conventions of the embedding.
    - C integers are mathematical integers ([Z]); every conversion the
      source performs ([size_t] arithmetic, the casts to [int] and to
      [uint64_t]) is written out with its wrap-around (LP64 widths).
    - A block of memory is the list of its bytes; a pointer is [None]
      (NULL) or [Some] block.  No two pointers of the source alias, so a
      block is passed by value and handed back updated.
    - An access outside a block, or through NULL, is undefined behaviour:
      the computation stops in [Undef], carrying the state reached.
    - The allocators and the ZeroMQ library are the environment: an oracle
      says which allocation requests succeed, and the library's answers are
      an arbitrary function of the calls made so far.
    - Of the diagnostics ([ngx_log_debug*], [ngx_log_error]) the embedding
      keeps the read of the log they write to; [free] and [ngx_pfree],
      which no function observes, are left out. *)

From Stdlib Require Import ZArith List Bool Lia.
From Stdlib Require Import Strings.Byte.
From Stdlib Require Strings.String.
Import ListNotations.
Local Open Scope Z_scope.

(** ** C integer conversions *)

Definition to_size_t (z : Z) : Z := z mod 2 ^ 64.
Definition to_uint64_t (z : Z) : Z := z mod 2 ^ 64.
Definition to_int (z : Z) : Z := (z + 2 ^ 31) mod 2 ^ 32 - 2 ^ 31.

(** ** Computations that may run into undefined behaviour *)

Inductive result (S A : Type) : Type :=
| Val (a : A) (s : S)
| Undef (s : S).
Arguments Val {S A} a s.
Arguments Undef {S A} s.

Definition M (S A : Type) : Type := S -> result S A.

Definition ret {S A : Type} (a : A) : M S A := fun s => Val a s.

Definition bind {S A B : Type} (m : M S A) (f : A -> M S B) : M S B :=
  fun s => match m s with
           | Val a s' => f a s'
           | Undef s' => Undef s'
           end.

Definition undef {S A : Type} : M S A := fun s => Undef s.

(** The state a computation stops in, whichever way it stops. *)
Definition final {S A : Type} (r : result S A) : S :=
  match r with
  | Val _ s => s
  | Undef s => s
  end.

Definition lift {S A : Type} (o : option A) : M S A :=
  match o with
  | Some a => ret a
  | None => undef
  end.

Notation "x <- m ;; k" := (bind m (fun x => k))
  (at level 61, m at next level, right associativity).
Notation "m ;;; k" := (bind m (fun _ => k))
  (at level 61, right associativity).

(** ** Memory blocks and the C string functions the source calls *)

Definition block := list byte.
Definition pointer := option block.

Definition is_nul (b : byte) : bool := Byte.eqb b x00.

(** [strnlen s n]: the number of bytes before the first NUL among the first
    [n] bytes of [s]; [None] when the scan leaves the block. *)
Fixpoint strnlen (s : block) (n : nat) {struct n} : option nat :=
  match n with
  | O => Some O
  | S n' =>
      match s with
      | [] => None
      | b :: s' => if is_nul b then Some O else option_map S (strnlen s' n')
      end
  end.

(** [strlen s]: the index of the first NUL of [s]; [None] when the block
    holds none. *)
Fixpoint strlen (s : block) : option nat :=
  match s with
  | [] => None
  | b :: s' => if is_nul b then Some O else option_map S (strlen s')
  end.

(** [p[i] = b] *)
Definition store (p : block) (i : nat) (b : byte) : option block :=
  if (i <? length p)%nat
  then Some (firstn i p ++ b :: skipn (S i) p)
  else None.

(** [memcpy(dest, src, n)] *)
Definition memcpy (dest src : pointer) (n : nat) : option block :=
  match dest, src with
  | Some d, Some s =>
      if ((n <=? length d) && (n <=? length s))%nat
      then Some (firstn n s ++ skipn n d)
      else None
  | _, _ => None
  end.

(** [strncat(dest, src, n)]: at most [n] bytes of [src], up to its first
    NUL, are written over the terminator of the string held in [dest],
    followed by a new terminator. *)
Definition strncat (dest : block) (src : pointer) (n : nat) : option block :=
  match src with
  | None => None
  | Some s =>
      match strlen dest, strnlen s n with
      | Some d, Some l =>
          if (d + l + 1 <=? length dest)%nat
          then Some (firstn d dest ++ firstn l s
                       ++ x00 :: skipn (d + l + 1) dest)
          else None
      | _, _ => None
      end
  end.

(** The next answer of an allocator: an oracle lists the outcomes of the
    requests to come ([true]: memory is granted); once the list is used up
    every request is granted. *)
Definition next_alloc (oracle : list bool) : bool * list bool :=
  match oracle with
  | [] => (true, [])
  | b :: oracle' => (b, oracle')
  end.

(** ** nginx types *)

Definition NGX_OK : Z := 0.
Definition NGX_ERROR : Z := -1.

Record ngx_str_t : Type := mk_ngx_str { len : Z; data : pointer }.

(** [ngx_string("...")]: a counted string over exactly its bytes. *)
Definition ngx_string (bs : list byte) : ngx_str_t :=
  {| len := Z.of_nat (length bs); data := Some bs |}.

(** A pool, as far as this file uses it: the outcomes of its allocations. *)
Definition ngx_pool_t : Type := list bool.

(** ** The message framer *)

Module Framer.

(** What [brokerlog_serialize_zmq] reads and writes besides its two
    inputs: the libc heap, the pool and the caller's output string. *)
Record mem : Type :=
  mk_mem { libc : list bool; pool : ngx_pool_t; output : ngx_str_t }.

Definition get_output : M mem ngx_str_t := fun m => Val (output m) m.

(** [output->len = n] and [output->data = p] *)
Definition set_output_len (n : Z) : M mem unit :=
  fun m => Val tt {| libc := libc m; pool := pool m;
                     output := {| len := n; data := data (output m) |} |}.

Definition set_output_data (p : pointer) : M mem unit :=
  fun m => Val tt {| libc := libc m; pool := pool m;
                     output := {| len := len (output m); data := p |} |}.

(** [strndup(s, n)]: a fresh block of [strnlen(s, n) + 1] bytes. *)
Definition strndup (s : pointer) (n : nat) : M mem pointer :=
  match s with
  | None => undef
  | Some src =>
      l <- lift (strnlen src n) ;;
      fun m =>
        let (ok, rest) := next_alloc (libc m) in
        Val (if ok then Some (firstn l src ++ [x00]) else None)
            {| libc := rest; pool := pool m; output := output m |}
  end.

(** [ngx_pcalloc(pool, size)]: a zeroed block of the pool. *)
Definition ngx_pcalloc (size : nat) : M mem pointer :=
  fun m =>
    let (ok, rest) := next_alloc (pool m) in
    Val (if ok then Some (repeat x00 size) else None)
        {| libc := libc m; pool := rest; output := output m |}.

(** [strncat] hands back its first argument. *)
Definition strncat_ptr (dest : block) (src : pointer) (n : nat)
  : M mem pointer :=
  d <- lift (strncat dest src n) ;; ret (Some d).

(** [brokerlog_serialize_zmq(pool, endpoint, data, output)]: the pool and
    the output, passed by pointer, are in [mem]; the parameter [data] is
    [data_] here, next to the field [data]. *)
Definition brokerlog_serialize_zmq (endpoint data_ : ngx_str_t) : M mem Z :=
  let msg_len := to_size_t (len endpoint + len data_ + 1) in
  endp <- strndup (data endpoint) (Z.to_nat (len endpoint)) ;;
  match endp with
  | None => ret NGX_ERROR
  | Some endp =>
  endp <- lift (store endp (Z.to_nat (len endpoint)) x00) ;;
  msg <- ngx_pcalloc (Z.to_nat msg_len) ;;
  match msg with
  | None => ret NGX_ERROR
  | Some msg =>
  msg <- strncat_ptr msg (Some endp) (Z.to_nat (len endpoint)) ;;
  match msg with
  | None => ret NGX_ERROR
  | Some msg =>
  msg <- strncat_ptr msg (data data_) (Z.to_nat (len data_)) ;;
  match msg with
  | None => ret NGX_ERROR
  | Some msg =>
  set_output_len (to_size_t (msg_len - 1)) ;;;
  out <- get_output ;;
  buf <- ngx_pcalloc (Z.to_nat (len out)) ;;
  set_output_data buf ;;;
  out <- get_output ;;
  copied <- lift (memcpy (data out) (Some msg) (Z.to_nat (len out))) ;;
  set_output_data (Some copied) ;;;
  out <- get_output ;;
  match data out with
  | None => ret NGX_ERROR
  | Some _ => ret NGX_OK
  end
  end end end end.

End Framer.

(** ** The transport context and the publisher socket *)

Module Lifecycle.

(** Handles of the ZeroMQ library and of the nginx log are opaque
    addresses. *)
Definition handle : Type := positive.
Definition ngx_log_t : Type := positive.

Inductive socket_type : Type := ZMQ_PUB.
Inductive sockopt : Type := ZMQ_LINGER | ZMQ_HWM.

(** One call of the ZeroMQ library, with its arguments and its answer. *)
Inductive zmq_event : Type :=
| Ev_init (io_threads : Z) (res : option handle)
| Ev_socket (context : handle) (type : socket_type) (res : option handle)
| Ev_setsockopt (socket : option handle) (name : sockopt)
                (optval optvallen : Z) (rc : Z)
| Ev_connect (socket : option handle) (endpoint : list byte) (rc : Z)
| Ev_close (socket : handle)
| Ev_term (context : handle).

(** The library: its answer to a call may depend on every call made
    before. *)
Record zmq_library : Type := mk_library {
  answer_init : list zmq_event -> Z -> option handle;
  answer_socket : list zmq_event -> handle -> socket_type -> option handle;
  answer_setsockopt :
    list zmq_event -> option handle -> sockopt -> Z -> Z -> Z;
  answer_connect : list zmq_event -> option handle -> list byte -> Z
}.

(** The environment of the life-cycle functions: the libc heap and the
    calls of the library made so far, oldest first. *)
Record world : Type := mk_world { heap : list bool; calls : list zmq_event }.

(** [ngx_http_brokerlog_ctx_t].  The header that declares it is not among
    the sources: the record has the fields the functions use, with the
    types their uses give them. *)
Record ngx_http_brokerlog_ctx_t : Type := mk_ctx {
  log : option ngx_log_t;
  zmq_context : option handle;
  zmq_socket : option handle;
  ccreated : Z;
  screated : Z;
  iothreads : Z
}.

Record ngx_http_brokerlog_server_t : Type := mk_server {
  connection : ngx_str_t
}.

(** [ngx_http_brokerlog_element_conf_t]; its fields [server],
    [iothreads], [qlen] and [ctx] carry the prefix [cf_]. *)
Record ngx_http_brokerlog_element_conf_t : Type := mk_conf {
  cf_server : ngx_http_brokerlog_server_t;
  cf_iothreads : Z;
  cf_qlen : Z;
  cf_ctx : option ngx_http_brokerlog_ctx_t
}.

Definition set_log (c : ngx_http_brokerlog_ctx_t) (v : option ngx_log_t) :=
  {| log := v; zmq_context := zmq_context c; zmq_socket := zmq_socket c;
     ccreated := ccreated c; screated := screated c;
     iothreads := iothreads c |}.

Definition set_zmq_context (c : ngx_http_brokerlog_ctx_t) (v : option handle) :=
  {| log := log c; zmq_context := v; zmq_socket := zmq_socket c;
     ccreated := ccreated c; screated := screated c;
     iothreads := iothreads c |}.

Definition set_zmq_socket (c : ngx_http_brokerlog_ctx_t) (v : option handle) :=
  {| log := log c; zmq_context := zmq_context c; zmq_socket := v;
     ccreated := ccreated c; screated := screated c;
     iothreads := iothreads c |}.

Definition set_ccreated (c : ngx_http_brokerlog_ctx_t) (v : Z) :=
  {| log := log c; zmq_context := zmq_context c; zmq_socket := zmq_socket c;
     ccreated := v; screated := screated c; iothreads := iothreads c |}.

Definition set_screated (c : ngx_http_brokerlog_ctx_t) (v : Z) :=
  {| log := log c; zmq_context := zmq_context c; zmq_socket := zmq_socket c;
     ccreated := ccreated c; screated := v; iothreads := iothreads c |}.

Definition set_iothreads (c : ngx_http_brokerlog_ctx_t) (v : Z) :=
  {| log := log c; zmq_context := zmq_context c; zmq_socket := zmq_socket c;
     ccreated := ccreated c; screated := screated c; iothreads := v |}.

Definition set_ctx (cf : ngx_http_brokerlog_element_conf_t)
           (c : ngx_http_brokerlog_ctx_t) :=
  {| cf_server := cf_server cf; cf_iothreads := cf_iothreads cf;
     cf_qlen := cf_qlen cf; cf_ctx := Some c |}.

(** [calloc(n, sizeof(char))] *)
Definition calloc (n : nat) : M world pointer :=
  fun w =>
    let (ok, rest) := next_alloc (heap w) in
    Val (if ok then Some (repeat x00 n) else None)
        {| heap := rest; calls := calls w |}.

(** The string a [char *] argument denotes: the bytes before the first
    NUL of its block. *)
Definition c_string (p : block) : option (list byte) :=
  option_map (fun n => firstn n p) (strlen p).

Definition record (e : zmq_event) : M world unit :=
  fun w => Val tt {| heap := heap w; calls := calls w ++ [e] |}.

(** [connection = calloc(len + 1, sizeof(char))] and the [memcpy] that
    fills it: the destination as a NUL-terminated string. *)
Definition copy_connection (cf : ngx_http_brokerlog_element_conf_t)
  : M world block :=
  let name := connection (cf_server cf) in
  connection <- calloc (Z.to_nat (to_size_t (len name + 1))) ;;
  lift (memcpy connection (data name) (Z.to_nat (len name))).

(** Diagnostics.  [ngx_log_error] and [ngx_log_debug] are macros of nginx
    that test [log->log_level] before they write: through a NULL log they
    are undefined.  What they write is not modelled. *)
Definition through_log (l : option ngx_log_t) : M world unit :=
  match l with
  | Some _ => ret tt
  | None => undef
  end.

Definition ngx_log_error : option ngx_log_t -> M world unit := through_log.
Definition ngx_log_debug : option ngx_log_t -> M world unit := through_log.

Section Program.

Variable lib : zmq_library.

(** The build: with [NGX_DEBUG] the macro [ngx_log_debug0] is
    [ngx_log_debug], without it the macro expands to nothing. *)
Variable NGX_DEBUG : bool.

(** The two macros of [ngx_http_brokerlog_zmq.h], a header that is not
    part of the sources at hand: they are parameters. *)
Variable ZMQ_NGINX_LINGER : Z.
Variable ZMQ_NGINX_QUEUE_LENGTH : Z.

Definition ngx_log_debug0 (l : option ngx_log_t) : M world unit :=
  if NGX_DEBUG then ngx_log_debug l else ret tt.

Definition zmq_init (io_threads : Z) : M world (option handle) :=
  fun w =>
    let r := answer_init lib (calls w) io_threads in
    Val r {| heap := heap w; calls := calls w ++ [Ev_init io_threads r] |}.

(** [zmq_socket()], under another name than the field [zmq_socket]. *)
Definition zmq_socket_ (context : handle) (type : socket_type)
  : M world (option handle) :=
  fun w =>
    let r := answer_socket lib (calls w) context type in
    Val r {| heap := heap w;
             calls := calls w ++ [Ev_socket context type r] |}.

Definition zmq_setsockopt (s : option handle) (name : sockopt)
           (optval optvallen : Z) : M world Z :=
  fun w =>
    let r := answer_setsockopt lib (calls w) s name optval optvallen in
    Val r {| heap := heap w;
             calls := calls w ++ [Ev_setsockopt s name optval optvallen r] |}.

Definition zmq_connect (s : option handle) (endpoint : list byte)
  : M world Z :=
  fun w =>
    let r := answer_connect lib (calls w) s endpoint in
    Val r {| heap := heap w; calls := calls w ++ [Ev_connect s endpoint r] |}.

Definition zmq_close (s : handle) : M world unit := record (Ev_close s).

Definition zmq_term (context : handle) : M world unit :=
  record (Ev_term context).

Definition zmq_init_ctx (c : ngx_http_brokerlog_ctx_t)
  : M world (Z * ngx_http_brokerlog_ctx_t) :=
  ngx_log_debug0 (log c) ;;;
  h <- zmq_init (to_int (iothreads c)) ;;
  let c := set_zmq_context c h in
  match zmq_context c with
  | None =>
      ngx_log_debug (log c) ;;;
      ret (-1, c)
  | Some _ =>
      let c := set_ccreated c 1 in
      ngx_log_debug (log c) ;;;
      ret (0, c)
  end.

(** In the first test the diagnostic reads [cf->ctx->log] where [cf] or
    [cf->ctx] is NULL. *)
Definition zmq_create_ctx (cf : option ngx_http_brokerlog_element_conf_t)
  : M world (Z * option ngx_http_brokerlog_element_conf_t) :=
  match cf with
  | None =>
      ngx_log_debug0 None ;;;
      ret (1, cf)
  | Some cf0 =>
      match cf_ctx cf0 with
      | None =>
          ngx_log_debug0 None ;;;
          ret (1, cf)
      | Some c =>
          if ccreated c =? 1 then
            ngx_log_debug0 (log c) ;;;
            ret (0, cf)
          else
            let c := set_iothreads c (cf_iothreads cf0) in
            r <- zmq_init_ctx c ;;
            let (rc, c) := r in
            if negb (rc =? 0) then
              ngx_log_debug0 (log c) ;;;
              ngx_log_error (log c) ;;;
              ret (rc, Some (set_ctx cf0 c))
            else
              ngx_log_debug0 (log c) ;;;
              ret (0, Some (set_ctx cf0 c))
      end
  end.

Definition zmq_term_ctx (c : ngx_http_brokerlog_ctx_t)
  : M world ngx_http_brokerlog_ctx_t :=
  c <- match zmq_socket c with
       | Some s => zmq_close s ;;; ret (set_zmq_socket c None)
       | None => ret c
       end ;;
  c <- match zmq_context c with
       | Some x => zmq_term x ;;; ret (set_zmq_context c None)
       | None => ret c
       end ;;
  match log c with
  | Some _ => ret (set_log c None)
  | None => ret c
  end.

Definition zmq_create_socket (cf : ngx_http_brokerlog_element_conf_t)
  : M world (Z * ngx_http_brokerlog_element_conf_t) :=
  let linger := to_int ZMQ_NGINX_LINGER in
  let qlen := to_uint64_t ZMQ_NGINX_QUEUE_LENGTH in
  connection <- copy_connection cf ;;
  c <- lift (cf_ctx cf) ;;
  ngx_log_debug (log c) ;;;
  let qlen :=
    if negb (to_uint64_t (cf_qlen cf) =? qlen)
    then to_uint64_t (cf_qlen cf)
    else qlen in
  match zmq_context c with
  | None =>
      ngx_log_debug0 (log c) ;;;
      ret (-1, cf)
  | Some context =>
      let configure (c : ngx_http_brokerlog_ctx_t) :=
        rc <- zmq_setsockopt (zmq_socket c) ZMQ_LINGER linger 4 ;;
        if negb (rc =? 0) then
          ngx_log_debug0 (log c) ;;;
          ngx_log_error (log c) ;;;
          ret (-1, set_ctx cf c)
        else
          rc <- zmq_setsockopt (zmq_socket c) ZMQ_HWM qlen 8 ;;
          if negb (rc =? 0) then
            ngx_log_debug0 (log c) ;;;
            ngx_log_error (log c) ;;;
            ret (-1, set_ctx cf c)
          else
            addr <- lift (c_string connection) ;;
            rc <- zmq_connect (zmq_socket c) addr ;;
            if negb (rc =? 0) then
              ngx_log_debug0 (log c) ;;;
              ngx_log_error (log c) ;;;
              ret (-1, set_ctx cf c)
            else
              ngx_log_debug0 (log c) ;;;
              ret (rc, set_ctx cf c) in
      if screated c =? 0 then
        ngx_log_debug0 (log c) ;;;
        s <- zmq_socket_ context ZMQ_PUB ;;
        let c := set_zmq_socket c s in
        match zmq_socket c with
        | None =>
            ngx_log_debug0 (log c) ;;;
            ngx_log_error (log c) ;;;
            ret (-1, set_ctx cf c)
        | Some _ => configure (set_screated c 1)
        end
      else configure c
  end.

(** A caller's sequence of life-cycle calls on one scope. *)
Inductive op : Type := Create_ctx | Create_socket | Term_ctx.

Definition step (o : op) (cf : ngx_http_brokerlog_element_conf_t)
  : M world ngx_http_brokerlog_element_conf_t :=
  match o with
  | Create_ctx =>
      r <- zmq_create_ctx (Some cf) ;;
      match snd r with
      | Some cf' => ret cf'
      | None => ret cf
      end
  | Create_socket =>
      r <- zmq_create_socket cf ;;
      ret (snd r)
  | Term_ctx =>
      c <- lift (cf_ctx cf) ;;
      c <- zmq_term_ctx c ;;
      ret (set_ctx cf c)
  end.

Fixpoint run (ops : list op) (cf : ngx_http_brokerlog_element_conf_t)
  : M world ngx_http_brokerlog_element_conf_t :=
  match ops with
  | [] => ret cf
  | o :: ops' => cf' <- step o cf ;; run ops' cf'
  end.

End Program.

End Lifecycle.

(** * Vocabulary of the statements *)

Import Lifecycle.

(** No byte of [bs] is NUL. *)
Definition nul_free (bs : list byte) : bool :=
  forallb (fun b => negb (is_nul b)) bs.

(** The first [n] requests to an allocator are granted. *)
Definition grants (oracle : list bool) (n : nat) : bool :=
  forallb (fun b => b) (firstn n oracle).

(** The world once the library has been called [evs] more times. *)
Definition after_calls (w : world) (evs : list zmq_event) : world :=
  {| heap := heap w; calls := calls w ++ evs |}.

Definition is_socket_creation (e : zmq_event) : bool :=
  match e with
  | Ev_socket _ _ (Some _) => true
  | _ => false
  end.

(** How many sockets the calls [evs] brought into being. *)
Definition socket_creations (evs : list zmq_event) : nat :=
  length (filter is_socket_creation evs).

(** How many sockets a scope may still create: one while its creation flag
    reads 0. *)
Definition creations_left (cf : ngx_http_brokerlog_element_conf_t) : nat :=
  match cf_ctx cf with
  | Some c => if screated c =? 0 then 1%nat else 0%nat
  | None => 0%nat
  end.

(** What a call adds to the calls of the library, and what it leaves of
    the scope's right to create a socket. *)
Definition spends (cf : ngx_http_brokerlog_element_conf_t) (w : world)
           (r : result world ngx_http_brokerlog_element_conf_t) : Prop :=
  exists evs,
    calls (final r) = calls w ++ evs
    /\ (socket_creations evs
        + match r with
          | Val cf' _ => creations_left cf'
          | Undef _ => 0
          end <= creations_left cf)%nat.

(** The capacity the specification asks for: the default when the
    configured value is the default literal, the configured value
    otherwise, as the [uint64_t] the option takes. *)
Definition queue_capacity (default configured : Z) : Z :=
  to_uint64_t (if configured =? default then default else configured).

(** The handles are gone and the context creation flag is still set. *)
Definition terminated (cf : ngx_http_brokerlog_element_conf_t) : Prop :=
  exists c, cf_ctx cf = Some c /\ ccreated c = 1
            /\ zmq_context c = None /\ zmq_socket c = None.

(** What [zmq_term_ctx] asks of the library for a scope: to close its
    socket, to terminate its context, each when the handle is there. *)
Definition closing (c : ngx_http_brokerlog_ctx_t) : list zmq_event :=
  match zmq_socket c with
  | Some s => [Ev_close s]
  | None => []
  end.

Definition terminating (c : ngx_http_brokerlog_ctx_t) : list zmq_event :=
  match zmq_context c with
  | Some x => [Ev_term x]
  | None => []
  end.

(** A scope after teardown: its three references are NULL. *)
Definition torn_down (c : ngx_http_brokerlog_ctx_t)
  : ngx_http_brokerlog_ctx_t :=
  {| log := None; zmq_context := None; zmq_socket := None;
     ccreated := ccreated c; screated := screated c;
     iothreads := iothreads c |}.

(** A library none of whose calls fails. *)
Definition always_up (lib : zmq_library) : Prop :=
  (forall h t, answer_init lib h t <> None)
  /\ (forall h x ty, answer_socket lib h x ty <> None)
  /\ (forall h s o v n, answer_setsockopt lib h s o v n = 0)
  /\ (forall h s a, answer_connect lib h s a = 0).

(** The socket step of the specification's [ensureSocket], for the library
    [lib] after the calls [h]: a socket is asked for only while the
    creation flag reads 0, and the socket that is stored is the one the
    library hands out. *)
Inductive ensureSocket_socket (lib : zmq_library) (h : list zmq_event)
          (context : handle) (c : ngx_http_brokerlog_ctx_t)
  : list zmq_event -> ngx_http_brokerlog_ctx_t -> Prop :=
| Socket_created (s : handle) :
    screated c = 0 ->
    answer_socket lib h context ZMQ_PUB = Some s ->
    ensureSocket_socket lib h context c
      [Ev_socket context ZMQ_PUB (Some s)]
      (set_screated (set_zmq_socket c (Some s)) 1)
| Socket_kept :
    screated c <> 0 ->
    ensureSocket_socket lib h context c [] c.

(** The steps of the specification's [ensureSocket], in its words: (a)
    create the socket if not yet created, (b) set linger, (c) set the
    outbound queue capacity, (d) connect; a step runs only when every step
    before it succeeded, and a failing step ends the call with an error.
    Every answer is the one the library [lib] gives to that request after
    the calls [h] and the requests made before it. *)
Inductive ensureSocket_steps (lib : zmq_library) (h : list zmq_event)
          (linger capacity : Z) (context : handle)
          (addr : list byte) (c : ngx_http_brokerlog_ctx_t)
  : list zmq_event -> Z -> ngx_http_brokerlog_ctx_t -> Prop :=
| Create_failed :
    screated c = 0 ->
    answer_socket lib h context ZMQ_PUB = None ->
    ensureSocket_steps lib h linger capacity context addr c
      [Ev_socket context ZMQ_PUB None] (-1) (set_zmq_socket c None)
| Linger_failed (evs : list zmq_event) (c1 : ngx_http_brokerlog_ctx_t)
                (rc : Z) :
    ensureSocket_socket lib h context c evs c1 ->
    answer_setsockopt lib (h ++ evs) (zmq_socket c1) ZMQ_LINGER linger 4
    = rc ->
    rc <> 0 ->
    ensureSocket_steps lib h linger capacity context addr c
      (evs ++ [Ev_setsockopt (zmq_socket c1) ZMQ_LINGER linger 4 rc])
      (-1) c1
| Capacity_failed (evs : list zmq_event) (c1 : ngx_http_brokerlog_ctx_t)
                  (rc : Z) :
    ensureSocket_socket lib h context c evs c1 ->
    answer_setsockopt lib (h ++ evs) (zmq_socket c1) ZMQ_LINGER linger 4
    = 0 ->
    answer_setsockopt lib
      (h ++ evs ++ [Ev_setsockopt (zmq_socket c1) ZMQ_LINGER linger 4 0])
      (zmq_socket c1) ZMQ_HWM capacity 8
    = rc ->
    rc <> 0 ->
    ensureSocket_steps lib h linger capacity context addr c
      (evs ++ [Ev_setsockopt (zmq_socket c1) ZMQ_LINGER linger 4 0;
               Ev_setsockopt (zmq_socket c1) ZMQ_HWM capacity 8 rc])
      (-1) c1
| Connect_failed (evs : list zmq_event) (c1 : ngx_http_brokerlog_ctx_t)
                 (rc : Z) :
    ensureSocket_socket lib h context c evs c1 ->
    answer_setsockopt lib (h ++ evs) (zmq_socket c1) ZMQ_LINGER linger 4
    = 0 ->
    answer_setsockopt lib
      (h ++ evs ++ [Ev_setsockopt (zmq_socket c1) ZMQ_LINGER linger 4 0])
      (zmq_socket c1) ZMQ_HWM capacity 8
    = 0 ->
    answer_connect lib
      (h ++ evs ++ [Ev_setsockopt (zmq_socket c1) ZMQ_LINGER linger 4 0;
                    Ev_setsockopt (zmq_socket c1) ZMQ_HWM capacity 8 0])
      (zmq_socket c1) addr
    = rc ->
    rc <> 0 ->
    ensureSocket_steps lib h linger capacity context addr c
      (evs ++ [Ev_setsockopt (zmq_socket c1) ZMQ_LINGER linger 4 0;
               Ev_setsockopt (zmq_socket c1) ZMQ_HWM capacity 8 0;
               Ev_connect (zmq_socket c1) addr rc])
      (-1) c1
| Connected (evs : list zmq_event) (c1 : ngx_http_brokerlog_ctx_t) :
    ensureSocket_socket lib h context c evs c1 ->
    answer_setsockopt lib (h ++ evs) (zmq_socket c1) ZMQ_LINGER linger 4
    = 0 ->
    answer_setsockopt lib
      (h ++ evs ++ [Ev_setsockopt (zmq_socket c1) ZMQ_LINGER linger 4 0])
      (zmq_socket c1) ZMQ_HWM capacity 8
    = 0 ->
    answer_connect lib
      (h ++ evs ++ [Ev_setsockopt (zmq_socket c1) ZMQ_LINGER linger 4 0;
                    Ev_setsockopt (zmq_socket c1) ZMQ_HWM capacity 8 0])
      (zmq_socket c1) addr
    = 0 ->
    ensureSocket_steps lib h linger capacity context addr c
      (evs ++ [Ev_setsockopt (zmq_socket c1) ZMQ_LINGER linger 4 0;
               Ev_setsockopt (zmq_socket c1) ZMQ_HWM capacity 8 0;
               Ev_connect (zmq_socket c1) addr 0])
      0 c1.

(** ** Sample inputs *)

Module Samples.

Import String.StringSyntax.
Local Open Scope string_scope.

Definition stratus : list byte := String.list_byte_of_string "/stratus/".
Definition num1 : list byte := String.list_byte_of_string "{'num':1}".
Definition stratus_num1 : list byte :=
  String.list_byte_of_string "/stratus/{'num':1}".
Definition tcp_local : list byte :=
  String.list_byte_of_string "tcp://127.0.0.1:5556".

(** [ngx_null_string] *)
Definition null_string : ngx_str_t := {| len := 0; data := None |}.

Definition fresh_mem (libc pool : list bool) : Framer.mem :=
  {| Framer.libc := libc; Framer.pool := pool;
     Framer.output := null_string |}.

(** A library whose every call succeeds, one whose every call fails. *)
Definition lib_up : zmq_library :=
  {| answer_init := fun _ _ => Some 1%positive;
     answer_socket := fun _ _ _ => Some 2%positive;
     answer_setsockopt := fun _ _ _ _ _ => 0;
     answer_connect := fun _ _ _ => 0 |}.


(** A scope as the module sets it up, before any call. *)
Definition fresh_ctx : ngx_http_brokerlog_ctx_t :=
  {| log := Some 7%positive; zmq_context := None; zmq_socket := None;
     ccreated := 0; screated := 0; iothreads := 0 |}.

(** A scope whose context and socket are in place. *)
Definition ready_ctx : ngx_http_brokerlog_ctx_t :=
  {| log := Some 7%positive; zmq_context := Some 1%positive;
     zmq_socket := Some 2%positive;
     ccreated := 1; screated := 1; iothreads := 1 |}.

(** A scope whose context is in place and whose socket is still to
    come. *)
Definition context_ctx : ngx_http_brokerlog_ctx_t :=
  {| log := Some 7%positive; zmq_context := Some 1%positive;
     zmq_socket := None;
     ccreated := 1; screated := 0; iothreads := 1 |}.

Definition conf_of (c : ngx_http_brokerlog_ctx_t)
  : ngx_http_brokerlog_element_conf_t :=
  {| cf_server := {| connection := ngx_string tcp_local |};
     cf_iothreads := 1; cf_qlen := 1000; cf_ctx := Some c |}.

Definition quiet : world := {| heap := []; calls := [] |}.

End Samples.

(** ** Vocabulary of the further statements *)

(** A counted string that is the start of a longer block: [len] counts the
    bytes [bs], the block goes on with [more]. *)
Definition ngx_view (bs more : list byte) : ngx_str_t :=
  {| len := Z.of_nat (length bs); data := Some (bs ++ more) |}.

Definition is_engine_creation (e : zmq_event) : bool :=
  match e with
  | Ev_init _ (Some _) => true
  | _ => false
  end.

(** How many engines the calls [evs] brought into being. *)
Definition engine_creations (evs : list zmq_event) : nat :=
  length (filter is_engine_creation evs).

(** How many engines a scope may still create through [zmq_create_ctx]:
    one until its creation flag reads 1. *)
Definition engines_left (cf : ngx_http_brokerlog_element_conf_t) : nat :=
  match cf_ctx cf with
  | Some c => if ccreated c =? 1 then 0%nat else 1%nat
  | None => 0%nat
  end.

(** The calls [zmq_create_socket] may make. *)
Definition is_socket_side (e : zmq_event) : bool :=
  match e with
  | Ev_socket _ _ _ | Ev_setsockopt _ _ _ _ _ | Ev_connect _ _ _ => true
  | Ev_init _ _ | Ev_close _ | Ev_term _ => false
  end.

Definition is_null {A : Type} (p : option A) : bool :=
  match p with
  | Some _ => false
  | None => true
  end.

(** The handles and the flags of a scope agree: a context is held only
    with the context flag set, a socket only with a context and with the
    socket flag set. *)
Definition coherent (c : ngx_http_brokerlog_ctx_t) : bool :=
  (is_null (zmq_context c) || (ccreated c =? 1))
  && (is_null (zmq_socket c)
      || (negb (is_null (zmq_context c)) && (screated c =? 1))).

Definition coherent_conf (cf : ngx_http_brokerlog_element_conf_t) : bool :=
  match cf_ctx cf with
  | Some c => coherent c
  | None => true
  end.

(** What [zmq_create_socket] may do to a scope: nothing, clear the socket
    handle after a creation that failed, or store a new socket and set the
    socket flag; the last two only while the flag reads 0. *)
Inductive socket_update (c : ngx_http_brokerlog_ctx_t)
  : ngx_http_brokerlog_ctx_t -> Prop :=
| Update_none : socket_update c c
| Update_failed :
    screated c = 0 -> socket_update c (set_zmq_socket c None)
| Update_created (s : handle) :
    screated c = 0 ->
    socket_update c (set_screated (set_zmq_socket c (Some s)) 1).

(** The footprint of a call of [zmq_create_socket]: the calls it adds are
    calls on the socket, and the scope it hands back differs from the one
    it got by a [socket_update], made only when a context is held. *)
Definition socket_footprint (cf : ngx_http_brokerlog_element_conf_t)
           (w : world)
           (r : result world (Z * ngx_http_brokerlog_element_conf_t))
  : Prop :=
  (exists evs,
      calls (final r) = calls w ++ evs
      /\ forallb is_socket_side evs = true)
  /\ match r with
     | Val (_, cf') _ =>
         cf' = cf
         \/ exists c c' x,
             cf_ctx cf = Some c /\ zmq_context c = Some x
             /\ socket_update c c' /\ cf' = set_ctx cf c'
     | Undef _ => True
     end.

(** What a call adds to the calls of the library, and what it leaves of
    the scope's right to create an engine. *)
Definition engine_spends (cf : ngx_http_brokerlog_element_conf_t) (w : world)
           (r : result world ngx_http_brokerlog_element_conf_t) : Prop :=
  exists evs,
    calls (final r) = calls w ++ evs
    /\ (engine_creations evs
        + match r with
          | Val cf' _ => engines_left cf'
          | Undef _ => 0
          end <= engines_left cf)%nat.

(** ** Further sample inputs *)

Module More_samples.

(** A configuration whose scope was never allocated. *)
Definition no_scope : ngx_http_brokerlog_element_conf_t :=
  {| cf_server := {| connection := ngx_string Samples.tcp_local |};
     cf_iothreads := 1; cf_qlen := 1000; cf_ctx := None |}.

(** A configuration whose destination holds a NUL byte. *)
Definition cut_conf : ngx_http_brokerlog_element_conf_t :=
  {| cf_server :=
       {| connection :=
            ngx_string (Samples.tcp_local ++ x00 :: Samples.stratus) |};
     cf_iothreads := 1; cf_qlen := 1000;
     cf_ctx := Some Samples.context_ctx |}.

(** A world whose heap refuses the next request. *)
Definition refusing : world := {| heap := [false]; calls := [] |}.

(** What [Samples.lib_up] is asked when a socket is set up for
    [Samples.conf_of]. *)
Definition socket_calls : list zmq_event :=
  [Ev_socket 1%positive ZMQ_PUB (Some 2%positive);
   Ev_setsockopt (Some 2%positive) ZMQ_LINGER 0 4 0;
   Ev_setsockopt (Some 2%positive) ZMQ_HWM 1000 8 0;
   Ev_connect (Some 2%positive) Samples.tcp_local 0].

End More_samples.

(** * Properties *)

Import Framer.

(** ** Blocks and strings *)

Lemma skipn_repeat_byte (b : byte) (n m : nat) :
  skipn n (repeat b m) = repeat b (m - n).
Proof.
  revert m; induction n as [|n IH]; intros m.
  - now rewrite Nat.sub_0_r.
  - destruct m as [|m]; simpl; [reflexivity | apply IH].
Qed.

Lemma strnlen_nul_free (s t : block) :
  nul_free s = true -> strnlen (s ++ t) (length s) = Some (length s).
Proof.
  induction s as [|b s IH]; simpl; intros H; [reflexivity|].
  apply andb_true_iff in H as [Hb Hs].
  apply negb_true_iff in Hb. rewrite Hb, (IH Hs). reflexivity.
Qed.

Lemma strlen_nul_free (s t : block) :
  nul_free s = true -> strlen (s ++ x00 :: t) = Some (length s).
Proof.
  induction s as [|b s IH]; simpl; intros H; [reflexivity|].
  apply andb_true_iff in H as [Hb Hs].
  apply negb_true_iff in Hb. rewrite Hb, (IH Hs). reflexivity.
Qed.

Lemma nul_free_app (s t : block) :
  nul_free (s ++ t) = nul_free s && nul_free t.
Proof. apply forallb_app. Qed.

Lemma nul_free_no_nul (s : block) : nul_free s = true -> ~ In x00 s.
Proof.
  intros H Hin. unfold nul_free in H.
  rewrite forallb_forall in H. specialize (H _ Hin). discriminate H.
Qed.

Lemma store_terminator (k : block) :
  store (k ++ [x00]) (length k) x00 = Some (k ++ [x00]).
Proof.
  unfold store.
  rewrite (skipn_all2 (n := S (length k)))
    by (rewrite length_app; simpl; lia).
  rewrite firstn_app, firstn_all, Nat.sub_diag, firstn_O, app_nil_r.
  replace (length k <? length (k ++ [x00]))%nat with true; [reflexivity|].
  symmetry; apply Nat.ltb_lt. rewrite length_app; simpl; lia.
Qed.

Lemma strncat_fresh (k : block) (n : nat) :
  nul_free k = true -> (length k <= n)%nat ->
  strncat (repeat x00 (S n)) (Some (k ++ [x00])) (length k)
  = Some (k ++ x00 :: repeat x00 (n - length k)).
Proof.
  intros Hk Hn. unfold strncat.
  rewrite (strnlen_nul_free k [x00] Hk). simpl strlen.
  rewrite repeat_length.
  replace (0 + length k + 1 <=? S n)%nat with true
    by (symmetry; apply Nat.leb_le; lia).
  rewrite firstn_app, firstn_all, Nat.sub_diag, firstn_O, app_nil_r.
  rewrite skipn_repeat_byte.
  replace (S n - (0 + length k + 1))%nat with (n - length k)%nat by lia.
  reflexivity.
Qed.

Lemma strncat_append (k p : block) (m : nat) :
  nul_free k = true -> nul_free p = true -> (length p <= m)%nat ->
  strncat (k ++ x00 :: repeat x00 m) (Some p) (length p)
  = Some (k ++ p ++ x00 :: repeat x00 (m - length p)).
Proof.
  intros Hk Hp Hm. unfold strncat.
  rewrite (strlen_nul_free k _ Hk).
  pose proof (strnlen_nul_free p [] Hp) as E. rewrite app_nil_r in E.
  rewrite E, length_app. simpl length. rewrite repeat_length.
  replace (length k + length p + 1 <=? length k + S m)%nat with true
    by (symmetry; apply Nat.leb_le; lia).
  rewrite firstn_app, firstn_all, Nat.sub_diag, firstn_O, app_nil_r.
  rewrite firstn_all.
  rewrite skipn_app, skipn_all2 by lia. simpl app at 2.
  replace (length k + length p + 1 - length k)%nat with (S (length p)) by lia.
  simpl skipn. rewrite skipn_repeat_byte. reflexivity.
Qed.

Lemma memcpy_frame (k p : block) :
  memcpy (Some (repeat x00 (length k + length p))) (Some (k ++ p ++ [x00]))
         (length k + length p)
  = Some (k ++ p).
Proof.
  unfold memcpy. rewrite repeat_length, !length_app. simpl length.
  rewrite Nat.leb_refl.
  replace (length k + length p <=? length k + (length p + 1))%nat with true
    by (symmetry; apply Nat.leb_le; lia).
  simpl andb. cbv iota.
  rewrite skipn_repeat_byte, Nat.sub_diag. simpl repeat. rewrite app_nil_r.
  rewrite app_assoc, firstn_app, length_app, Nat.sub_diag, firstn_O, app_nil_r.
  rewrite <- length_app. apply f_equal, firstn_all.
Qed.

Lemma next_alloc_grants (oracle : list bool) (n : nat) :
  grants oracle (S n) = true ->
  next_alloc oracle = (true, skipn 1 oracle)
  /\ grants (skipn 1 oracle) n = true.
Proof.
  unfold grants. destruct oracle as [|b o]; simpl.
  - intros _. split; [reflexivity|]. now rewrite firstn_nil.
  - intros H. apply andb_true_iff in H as [-> H]. now split.
Qed.

(** ** The message framer *)

Lemma to_size_t_small (z : Z) : 0 <= z < 2 ^ 64 -> to_size_t z = z.
Proof. intros H. unfold to_size_t. now apply Z.mod_small. Qed.

(** The call up to its second allocation, for a key and a payload without
    NUL: the scratch message holds the key, the payload and a
    terminator. *)
Ltac build_scratch_message Hk Hp Hlen Ek Eh Ep1 :=
  unfold brokerlog_serialize_zmq; cbn [len data ngx_string];
  rewrite !Nat2Z.id;
  match goal with
  | |- context [to_size_t (?a + ?b + 1)] =>
      rewrite (to_size_t_small (a + b + 1)) by lia;
      replace (a + b + 1 - 1) with (a + b) by lia;
      rewrite (to_size_t_small (a + b)) by lia;
      replace (Z.to_nat (a + b + 1)) with (S (Z.to_nat a + Z.to_nat b))
        by lia
  end;
  rewrite !Nat2Z.id;
  unfold bind at 1; unfold strndup, bind; rewrite Ek;
  cbn [lift ret libc pool output]; rewrite Eh;
  rewrite firstn_all, store_terminator;
  cbn [lift ret]; unfold ngx_pcalloc at 1;
  cbn [libc pool output]; rewrite Ep1;
  unfold strncat_ptr, bind;
  rewrite strncat_fresh by (assumption || lia);
  cbn [lift ret];
  match goal with
  | |- context [(length ?k + length ?p - length ?k)%nat] =>
      replace (length k + length p - length k)%nat with (length p) by lia
  end;
  rewrite strncat_append by (assumption || lia);
  rewrite Nat.sub_diag; cbn [lift ret repeat];
  unfold set_output_len, get_output, ngx_pcalloc, set_output_data;
  cbn [libc pool output len data].

(** C1, as amended.  For a routing key and a payload that hold no NUL byte
    and whose lengths add up within [size_t], and when the three
    allocations of the call are granted, [brokerlog_serialize_zmq] returns
    [NGX_OK] and leaves in the output exactly the bytes of the key
    immediately followed by the bytes of the payload, with the length
    [len(key) + len(payload)]; the frame holds no NUL byte, hence no
    terminator. *)
Theorem brokerlog_serialize_zmq_concat
        (key payload : list byte) (m : mem) :
  nul_free key = true ->
  nul_free payload = true ->
  Z.of_nat (length key) + Z.of_nat (length payload) + 1 < 2 ^ 64 ->
  grants (libc m) 1 = true ->
  grants (pool m) 2 = true ->
  brokerlog_serialize_zmq (ngx_string key) (ngx_string payload) m
  = Val NGX_OK
        {| libc := skipn 1 (libc m);
           pool := skipn 2 (pool m);
           output :=
             {| len := Z.of_nat (length key) + Z.of_nat (length payload);
                data := Some (key ++ payload) |} |}
  /\ ~ In x00 (key ++ payload).
Proof.
  intros Hk Hp Hlen Hl Hpool. split.
  2:{ apply nul_free_no_nul. now rewrite nul_free_app, Hk, Hp. }
  destruct m as [h pl o]. cbn [libc pool] in *.
  destruct (next_alloc_grants h 0 Hl) as [Eh _].
  destruct (next_alloc_grants pl 1 Hpool) as [Ep1 Hp1].
  destruct (next_alloc_grants _ 0 Hp1) as [Ep2 _].
  pose proof (strnlen_nul_free key [] Hk) as Ek. rewrite app_nil_r in Ek.
  build_scratch_message Hk Hp Hlen Ek Eh Ep1.
  rewrite Ep2. cbn [libc pool output len data].
  replace (Z.to_nat (Z.of_nat (length key) + Z.of_nat (length payload)))
    with (length key + length payload)%nat by lia.
  rewrite memcpy_frame.
  replace (skipn 2 pl) with (skipn 1 (skipn 1 pl))
    by (destruct pl as [|? [|? ?]]; reflexivity).
  reflexivity.
Qed.

(** The scenario of the specification: the key [/stratus/] and the payload
    [{'num':1}] give the 18 bytes [/stratus/{'num':1}]. *)
Lemma brokerlog_serialize_zmq_concat_witness :
  brokerlog_serialize_zmq (ngx_string Samples.stratus)
                          (ngx_string Samples.num1)
                          (Samples.fresh_mem [] [])
  = Val NGX_OK
        {| libc := []; pool := [];
           output := {| len := 18; data := Some Samples.stratus_num1 |} |}
  /\ ~ In x00 Samples.stratus_num1.
Proof.
  exact (brokerlog_serialize_zmq_concat
           Samples.stratus Samples.num1 (Samples.fresh_mem [] [])
           eq_refl eq_refl eq_refl eq_refl eq_refl).
Defined.

(** C1 as stated does not hold for every byte sequence, nor does the call
    always succeed.  With the key [/a/] and the three payload bytes
    [x], NUL, [y] the call returns [NGX_OK] with six bytes that are not the
    concatenation: the copy of the payload stops at its NUL byte and the
    frame is padded with NULs.  And when the copy of the key is refused
    memory the call returns [NGX_ERROR]. *)
Lemma brokerlog_serialize_zmq_concat_counterexample :
  (brokerlog_serialize_zmq (ngx_string [x2f; x61; x2f])
                           (ngx_string [x78; x00; x79])
                           (Samples.fresh_mem [] [])
   = Val NGX_OK
         {| libc := []; pool := [];
            output := {| len := 6;
                         data := Some [x2f; x61; x2f; x78; x00; x00] |} |}
   /\ [x2f; x61; x2f; x78; x00; x00] <> [x2f; x61; x2f] ++ [x78; x00; x79])
  /\ brokerlog_serialize_zmq (ngx_string Samples.stratus)
                             (ngx_string Samples.num1)
                             (Samples.fresh_mem [false] [])
     = Val NGX_ERROR (Samples.fresh_mem [] []).
Proof.
  split; [split|]; [reflexivity | discriminate | reflexivity].
Qed.

(** The two refusals the function handles: without memory for the copy of
    the key, or for the scratch message, it returns [NGX_ERROR] and the
    caller's output is as it was. *)
Lemma brokerlog_serialize_zmq_refused_early
      (key payload : list byte) (m : mem) :
  nul_free key = true ->
  grants (libc m) 1 = false \/ grants (pool m) 1 = false ->
  exists m',
    brokerlog_serialize_zmq (ngx_string key) (ngx_string payload) m
    = Val NGX_ERROR m'
    /\ output m' = output m.
Proof.
  intros Hk Hno. destruct m as [h pl o]. cbn [libc pool output] in *.
  pose proof (strnlen_nul_free key [] Hk) as Ek. rewrite app_nil_r in Ek.
  unfold brokerlog_serialize_zmq. cbn [len data ngx_string].
  rewrite !Nat2Z.id.
  unfold bind at 1. unfold strndup, bind. rewrite Ek.
  cbn [lift ret libc pool output].
  destruct h as [|[|] h]; cbn [next_alloc].
  1,2: rewrite firstn_all, store_terminator; cbn [lift ret];
       unfold ngx_pcalloc at 1; cbn [libc pool output];
       destruct pl as [|[|] pl]; cbn [next_alloc];
       try (destruct Hno as [Hno|Hno]; discriminate Hno);
       eexists; split; reflexivity.
  eexists; split; reflexivity.
Qed.

(** C7, where the code departs from it.  For a key and a payload without
    NUL, when the pool grants the scratch message and refuses the output
    buffer, the call does not return [NGX_ERROR]: it has set the output
    length to [len(key) + len(payload)] and the output data to NULL, and
    copies that many bytes through the NULL pointer before it looks at
    it. *)
Theorem brokerlog_serialize_zmq_output_refused
        (key payload : list byte) (m : mem) (rest : list bool) :
  nul_free key = true ->
  nul_free payload = true ->
  Z.of_nat (length key) + Z.of_nat (length payload) + 1 < 2 ^ 64 ->
  grants (libc m) 1 = true ->
  pool m = true :: false :: rest ->
  brokerlog_serialize_zmq (ngx_string key) (ngx_string payload) m
  = Undef {| libc := skipn 1 (libc m);
             pool := rest;
             output :=
               {| len := Z.of_nat (length key) + Z.of_nat (length payload);
                  data := None |} |}.
Proof.
  intros Hk Hp Hlen Hl Hpool.
  destruct m as [h pl o]. cbn [libc pool] in *. subst pl.
  destruct (next_alloc_grants h 0 Hl) as [Eh _].
  assert (Ep1 : next_alloc (true :: false :: rest) = (true, false :: rest))
    by reflexivity.
  pose proof (strnlen_nul_free key [] Hk) as Ek. rewrite app_nil_r in Ek.
  build_scratch_message Hk Hp Hlen Ek Eh Ep1.
  reflexivity.
Qed.

(** At the failing input: the key [/stratus/] and the payload [{'num':1}],
    the output left with length 18 and no data. *)
Lemma brokerlog_serialize_zmq_output_refused_witness :
  brokerlog_serialize_zmq (ngx_string Samples.stratus)
                          (ngx_string Samples.num1)
                          (Samples.fresh_mem [] [true; false])
  = Undef {| libc := []; pool := [];
             output := {| len := 18; data := None |} |}.
Proof.
  exact (brokerlog_serialize_zmq_output_refused
           Samples.stratus Samples.num1
           (Samples.fresh_mem [] [true; false]) []
           eq_refl eq_refl eq_refl eq_refl eq_refl).
Defined.

(** ** The life cycle of the context and of the socket *)

Section Lifecycle_facts.

Variable lib : zmq_library.
Variable NGX_DEBUG : bool.
Variable ZMQ_NGINX_LINGER : Z.
Variable ZMQ_NGINX_QUEUE_LENGTH : Z.

Lemma after_calls_nil (w : world) : after_calls w [] = w.
Proof. destruct w; unfold after_calls; simpl. now rewrite app_nil_r. Qed.

(** *** Diagnostics *)

(** Through a log that is there, a diagnostic does nothing the embedding
    sees. *)
Lemma ngx_log_debug0_valid (l : ngx_log_t) :
  ngx_log_debug0 NGX_DEBUG (Some l) = ret tt.
Proof. unfold ngx_log_debug0. now destruct NGX_DEBUG. Qed.

Lemma ngx_log_debug0_cases (l : option ngx_log_t) (w : world) :
  ngx_log_debug0 NGX_DEBUG l w = Val tt w
  \/ ngx_log_debug0 NGX_DEBUG l w = Undef w.
Proof.
  unfold ngx_log_debug0, ngx_log_debug, through_log.
  destruct NGX_DEBUG, l; auto.
Qed.

(** Every setter but [set_log] keeps the log, so one equation on the log of
    a scope settles every diagnostic of a call. *)
Ltac with_log H :=
  cbn [log set_zmq_context set_zmq_socket set_ccreated set_screated
           set_iothreads];
  rewrite ?H, ?ngx_log_debug0_valid;
  cbn [ngx_log_error ngx_log_debug through_log].

(** *** zmq_init_ctx and zmq_create_ctx *)

Lemma zmq_init_ctx_result (c : ngx_http_brokerlog_ctx_t) (l : ngx_log_t)
      (w : world) :
  log c = Some l ->
  zmq_init_ctx lib NGX_DEBUG c w
  = Val (match answer_init lib (calls w) (to_int (iothreads c)) with
         | Some h => (0, set_ccreated (set_zmq_context c (Some h)) 1)
         | None => (-1, set_zmq_context c None)
         end)
        (after_calls w
           [Ev_init (to_int (iothreads c))
                    (answer_init lib (calls w) (to_int (iothreads c)))]).
Proof.
  intros Hlog. unfold zmq_init_ctx. with_log Hlog.
  unfold bind, zmq_init. cbn [ret zmq_context set_zmq_context].
  now destruct (answer_init lib (calls w) (to_int (iothreads c))).
Qed.

Lemma zmq_create_ctx_unflagged
      (cf : ngx_http_brokerlog_element_conf_t)
      (c : ngx_http_brokerlog_ctx_t) (l : ngx_log_t) (w : world) :
  cf_ctx cf = Some c ->
  ccreated c <> 1 ->
  log c = Some l ->
  zmq_create_ctx lib NGX_DEBUG (Some cf) w
  = Val (match answer_init lib (calls w) (to_int (cf_iothreads cf)) with
         | Some h =>
             (0, Some (set_ctx cf (set_ccreated
                                     (set_zmq_context
                                        (set_iothreads c (cf_iothreads cf))
                                        (Some h)) 1)))
         | None =>
             (-1, Some (set_ctx cf (set_zmq_context
                                      (set_iothreads c (cf_iothreads cf))
                                      None)))
         end)
        (after_calls w
           [Ev_init (to_int (cf_iothreads cf))
                    (answer_init lib (calls w) (to_int (cf_iothreads cf)))]).
Proof.
  intros Hc Hflag Hlog. unfold zmq_create_ctx. rewrite Hc.
  replace (ccreated c =? 1) with false
    by (symmetry; apply Z.eqb_neq; exact Hflag).
  unfold bind at 1.
  rewrite (zmq_init_ctx_result _ l) by exact Hlog.
  cbn [iothreads set_iothreads].
  destruct (answer_init lib (calls w) (to_int (cf_iothreads cf)));
    cbn [negb Z.eqb]; with_log Hlog; reflexivity.
Qed.

(** With the flag set the library is not called, whatever the build and
    the log. *)
Lemma zmq_create_ctx_flagged
      (cf : ngx_http_brokerlog_element_conf_t)
      (c : ngx_http_brokerlog_ctx_t) (w : world) :
  cf_ctx cf = Some c ->
  ccreated c = 1 ->
  zmq_create_ctx lib NGX_DEBUG (Some cf) w
  = match ngx_log_debug0 NGX_DEBUG (log c) w with
    | Val _ _ => Val (0, Some cf) w
    | Undef _ => Undef w
    end.
Proof.
  intros Hc Hflag. unfold zmq_create_ctx. rewrite Hc, Hflag.
  cbn [Z.eqb Pos.eqb]. unfold bind.
  now destruct (ngx_log_debug0_cases (log c) w) as [-> | ->].
Qed.

(** C2.  When the context creation flag of the scope is set,
    [zmq_create_ctx] returns 0 at once: the library is not called, no
    engine is initialised, and the scope is left as it was.  (The one
    diagnostic on the way reads the log of the scope in a build with
    [NGX_DEBUG].) *)
Theorem zmq_create_ctx_idempotent
        (cf : ngx_http_brokerlog_element_conf_t)
        (c : ngx_http_brokerlog_ctx_t) (w : world) :
  cf_ctx cf = Some c ->
  ccreated c = 1 ->
  NGX_DEBUG = false \/ log c <> None ->
  zmq_create_ctx lib NGX_DEBUG (Some cf) w = Val (0, Some cf) w.
Proof.
  intros Hc Hflag Hlog. rewrite (zmq_create_ctx_flagged cf c w Hc Hflag).
  destruct Hlog as [Hrelease|Hlog].
  - unfold ngx_log_debug0. now rewrite Hrelease.
  - destruct (log c) as [l|]; [|contradiction].
    now rewrite ngx_log_debug0_valid.
Qed.

(** Calling twice: after a first call that succeeded, a second call
    returns 0 and neither calls the library nor changes the scope. *)
Lemma zmq_create_ctx_twice
      (cf cf' : ngx_http_brokerlog_element_conf_t) (w w' : world) :
  zmq_create_ctx lib NGX_DEBUG (Some cf) w = Val (0, Some cf') w' ->
  zmq_create_ctx lib NGX_DEBUG (Some cf') w' = Val (0, Some cf') w'.
Proof.
  destruct (cf_ctx cf) as [c|] eqn:Hc;
    [|unfold zmq_create_ctx; rewrite Hc; unfold bind;
      destruct (ngx_log_debug0_cases None w) as [E|E]; rewrite E;
      unfold ret; discriminate].
  destruct (Z.eq_dec (ccreated c) 1) as [Hflag|Hflag].
  - intros H. pose proof H as H'.
    rewrite (zmq_create_ctx_flagged cf c w Hc Hflag) in H'.
    destruct (ngx_log_debug0 NGX_DEBUG (log c) w); [|discriminate H'].
    inversion H'; subst. exact H.
  - destruct (log c) as [l|] eqn:Hlog.
    + rewrite (zmq_create_ctx_unflagged cf c l w Hc Hflag Hlog).
      destruct (answer_init lib (calls w) (to_int (cf_iothreads cf)));
        intros H; inversion H; subst.
      match goal with
      | |- zmq_create_ctx _ _ (Some (set_ctx _ ?c1)) ?w1 = _ =>
          rewrite (zmq_create_ctx_flagged (set_ctx cf c1) c1 w1
                     eq_refl eq_refl)
      end.
      cbn [log set_ccreated set_zmq_context set_iothreads].
      now rewrite Hlog, ngx_log_debug0_valid.
    + unfold zmq_create_ctx. rewrite Hc.
      replace (ccreated c =? 1) with false
        by (symmetry; apply Z.eqb_neq; exact Hflag).
      unfold bind at 1. unfold zmq_init_ctx. unfold bind at 1.
      cbn [log set_iothreads]. rewrite Hlog.
      destruct (ngx_log_debug0_cases None w) as [E|E];
        rewrite E; [|discriminate].
      unfold bind, zmq_init.
      cbn [log zmq_context set_zmq_context set_ccreated set_iothreads].
      rewrite Hlog.
      destruct (answer_init lib (calls w) _);
        cbn [ngx_log_debug through_log undef]; discriminate.
Qed.


(** *** zmq_term_ctx *)

Lemma zmq_term_ctx_result (c : ngx_http_brokerlog_ctx_t) (w : world) :
  zmq_term_ctx c w
  = Val (torn_down c) (after_calls w (closing c ++ terminating c)).
Proof.
  unfold zmq_term_ctx, bind, closing, terminating, torn_down, after_calls.
  destruct w as [hp cs].
  destruct c as [l x s cc sc io]; cbn [zmq_socket zmq_context log].
  destruct s as [s|], x as [x|], l as [l|]; cbn;
    rewrite <- ?app_assoc, ?app_nil_r; reflexivity.
Qed.

(** C4.  Whatever the scope, [zmq_term_ctx] first closes the socket, then
    terminates the context, each step being skipped when its handle is
    NULL, and leaves the three references (socket, context, log) NULL.
    On a scope that never became ready (no socket, no context) it does
    not call the library and changes nothing but the log reference it
    clears.  A second call in a row does not call the library and leaves
    the scope and the world exactly as the first call left them. *)
Theorem zmq_term_ctx_order (c : ngx_http_brokerlog_ctx_t) (w : world) :
  exists c' w',
    zmq_term_ctx c w = Val c' w'
    /\ w' = after_calls w (closing c ++ terminating c)
    /\ zmq_socket c' = None /\ zmq_context c' = None /\ log c' = None
    /\ (zmq_socket c = None -> zmq_context c = None ->
        w' = w /\ c' = set_log c None)
    /\ zmq_term_ctx c' w' = Val c' w'.
Proof.
  exists (torn_down c), (after_calls w (closing c ++ terminating c)).
  split; [apply zmq_term_ctx_result|].
  repeat (split; [reflexivity|]). split.
  - intros Hs Hx. split.
    + unfold closing, terminating. rewrite Hs, Hx. apply after_calls_nil.
    + destruct c as [l x s cc sc io]; cbn in *. now subst.
  - rewrite zmq_term_ctx_result. cbn. now rewrite after_calls_nil.
Qed.

(** C10.  From every state of the scope, [zmq_term_ctx] yields the same
    scope with the socket handle, the context handle and the log
    reference set to NULL: the creation flags [ccreated] and [screated]
    and the I/O thread count are what they were; the heap is not
    touched. *)
Theorem zmq_term_ctx_frame (c : ngx_http_brokerlog_ctx_t) (w : world) :
  exists c' w',
    zmq_term_ctx c w = Val c' w'
    /\ c' = {| log := None; zmq_context := None; zmq_socket := None;
               ccreated := ccreated c; screated := screated c;
               iothreads := iothreads c |}
    /\ ccreated c' = ccreated c
    /\ screated c' = screated c
    /\ iothreads c' = iothreads c
    /\ heap w' = heap w.
Proof.
  eexists _, _. split; [apply zmq_term_ctx_result|]. repeat split.
Qed.

(** *** zmq_create_socket *)

Lemma copy_connection_calls
      (cf : ngx_http_brokerlog_element_conf_t) (w : world) :
  calls (final (copy_connection cf w)) = calls w.
Proof.
  unfold copy_connection, bind, calloc.
  destruct (next_alloc (heap w)) as [ok rest].
  destruct (memcpy _ _ _); reflexivity.
Qed.

(** The copy completes for a destination given over exactly its bytes,
    when memory is granted. *)
Lemma copy_connection_ok
      (cf : ngx_http_brokerlog_element_conf_t) (addr : list byte)
      (w : world) :
  connection (cf_server cf) = ngx_string addr ->
  Z.of_nat (length addr) + 1 < 2 ^ 64 ->
  grants (heap w) 1 = true ->
  copy_connection cf w
  = Val (addr ++ [x00]) {| heap := skipn 1 (heap w); calls := calls w |}.
Proof.
  intros Hname Hlen Hheap.
  destruct (next_alloc_grants _ 0 Hheap) as [E _].
  unfold copy_connection, bind, calloc. rewrite Hname, E.
  cbn [len data ngx_string]. rewrite to_size_t_small by lia.
  rewrite Nat2Z.id.
  replace (Z.to_nat (Z.of_nat (length addr) + 1)) with (S (length addr))
    by lia.
  unfold memcpy. rewrite repeat_length, Nat.leb_refl.
  replace (length addr <=? S (length addr))%nat with true
    by (symmetry; apply Nat.leb_le; lia).
  cbn [andb lift ret]. rewrite firstn_all, skipn_repeat_byte.
  replace (S (length addr) - length addr)%nat with 1%nat by lia.
  reflexivity.
Qed.

Lemma c_string_terminated (addr : list byte) :
  nul_free addr = true -> c_string (addr ++ [x00]) = Some addr.
Proof.
  intros H. unfold c_string. rewrite (strlen_nul_free addr [] H).
  cbn [option_map]. now rewrite firstn_app, firstn_all, Nat.sub_diag,
                      firstn_O, app_nil_r.
Qed.

(** The capacity the source computes is the one the specification names. *)
Lemma capacity_applied (configured : Z) :
  (if negb (to_uint64_t configured =? to_uint64_t ZMQ_NGINX_QUEUE_LENGTH)
   then to_uint64_t configured
   else to_uint64_t ZMQ_NGINX_QUEUE_LENGTH)
  = queue_capacity ZMQ_NGINX_QUEUE_LENGTH configured.
Proof.
  unfold queue_capacity.
  destruct (configured =? ZMQ_NGINX_QUEUE_LENGTH) eqn:E.
  - apply Z.eqb_eq in E. subst. now rewrite Z.eqb_refl.
  - destruct (to_uint64_t configured =? to_uint64_t ZMQ_NGINX_QUEUE_LENGTH)
      eqn:E'; [|reflexivity].
    apply Z.eqb_eq in E'. now rewrite E'.
Qed.

(** C8.  When the scope has no transport context, [zmq_create_socket]
    returns -1 once the destination is copied: it does not call the
    library, so no socket is asked for, and the scope is unchanged. *)
Theorem zmq_create_socket_without_context
        (cf : ngx_http_brokerlog_element_conf_t)
        (c : ngx_http_brokerlog_ctx_t) (l : ngx_log_t)
        (w w1 : world) (conn : block) :
  cf_ctx cf = Some c ->
  zmq_context c = None ->
  log c = Some l ->
  copy_connection cf w = Val conn w1 ->
  zmq_create_socket lib NGX_DEBUG ZMQ_NGINX_LINGER ZMQ_NGINX_QUEUE_LENGTH cf w
  = Val (-1, cf) w1
  /\ calls w1 = calls w.
Proof.
  intros Hc Hx Hlog Hcopy. split.
  - unfold zmq_create_socket. unfold bind at 1. rewrite Hcopy.
    unfold bind at 1. rewrite Hc. cbn [lift ret]. with_log Hlog.
    unfold bind at 1. cbn [ret]. rewrite Hx. with_log Hlog. reflexivity.
  - pose proof (copy_connection_calls cf w) as E. now rewrite Hcopy in E.
Qed.

(** Without a context the library is not called, however the call ends. *)
Lemma zmq_create_socket_without_context_silent
      (cf : ngx_http_brokerlog_element_conf_t)
      (c : ngx_http_brokerlog_ctx_t) (w : world) :
  cf_ctx cf = Some c ->
  zmq_context c = None ->
  match zmq_create_socket lib NGX_DEBUG ZMQ_NGINX_LINGER
                          ZMQ_NGINX_QUEUE_LENGTH cf w with
  | Val r w1 => r = (-1, cf) /\ calls w1 = calls w
  | Undef w1 => calls w1 = calls w
  end.
Proof.
  intros Hc Hx. pose proof (copy_connection_calls cf w) as E.
  unfold zmq_create_socket. unfold bind at 1.
  destruct (copy_connection cf w) as [conn w1|w1]; cbn [final] in E;
    [|exact E].
  unfold bind at 1. rewrite Hc. cbn [lift ret].
  destruct (log c) as [l|] eqn:Hlog.
  - with_log Hlog. unfold bind at 1. cbn [ret]. rewrite Hx.
    with_log Hlog. now split.
  - with_log Hlog. exact E.
Qed.

Ltac configure_cases :=
  unfold bind, zmq_setsockopt, zmq_connect;
  cbn [heap calls lift ret undef];
  repeat match goal with
         | |- context [negb (?r =? 0)] =>
             let E := fresh "E" in
             destruct (Z.eqb_spec r 0) as [E|E];
             [try rewrite E; cbn [negb heap calls lift ret undef]
             |cbn [negb heap calls lift ret undef]]
         | H : c_string _ = Some _ |- _ =>
             rewrite H; cbn [negb heap calls lift ret undef]
         | |- context [lift (c_string ?b)] =>
             destruct (c_string b); cbn [negb heap calls lift ret undef]
         end.

Ltac answered :=
  rewrite ?app_nil_r, <- ?app_assoc; cbn [app];
  first [assumption | reflexivity].

Ltac steps_case P :=
  first
    [ eapply (Connected _ _ _ _ _ _ _ _ _ P); answered
    | eapply (Connect_failed _ _ _ _ _ _ _ _ _ _ P); answered
    | eapply (Capacity_failed _ _ _ _ _ _ _ _ _ _ P); answered
    | eapply (Linger_failed _ _ _ _ _ _ _ _ _ _ P); answered ].

Lemma zmq_create_socket_steps
      (cf : ngx_http_brokerlog_element_conf_t)
      (c : ngx_http_brokerlog_ctx_t) (context : handle) (l : ngx_log_t)
      (w w1 : world) (conn : block) (addr : list byte) :
  cf_ctx cf = Some c ->
  zmq_context c = Some context ->
  log c = Some l ->
  copy_connection cf w = Val conn w1 ->
  c_string conn = Some addr ->
  exists evs rc c',
    zmq_create_socket lib NGX_DEBUG ZMQ_NGINX_LINGER ZMQ_NGINX_QUEUE_LENGTH
                      cf w
    = Val (rc, set_ctx cf c') (after_calls w1 evs)
    /\ ensureSocket_steps lib (calls w1) (to_int ZMQ_NGINX_LINGER)
                          (queue_capacity ZMQ_NGINX_QUEUE_LENGTH (cf_qlen cf))
                          context addr c evs rc c'.
Proof.
  intros Hc Hx Hlog Hcopy Haddr.
  unfold zmq_create_socket. unfold bind at 1. rewrite Hcopy.
  unfold bind at 1. rewrite Hc. cbn [lift ret].
  cbv zeta. rewrite capacity_applied. rewrite Hx.
  destruct (Z.eqb_spec (screated c) 0) as [Es|Es].
  - with_log Hlog. unfold bind at 1 2 3. cbn [ret]. unfold zmq_socket_.
    destruct (answer_socket lib (calls w1) context ZMQ_PUB) as [s|] eqn:A;
      cbn [zmq_socket set_zmq_socket].
    + pose proof (Socket_created lib (calls w1) context c s Es A) as P.
      set (c1 := set_screated (set_zmq_socket c (Some s)) 1) in *.
      configure_cases.
      all: rewrite <- ?app_assoc in *;
        eexists _, _, c1; unfold after_calls; (split; [reflexivity|]).
      all: steps_case P.
    + unfold bind. cbn [ret]. eexists _, _, _. split; [reflexivity|].
      now apply Create_failed.
  - pose proof (Socket_kept lib (calls w1) context c Es) as P.
    with_log Hlog. unfold bind at 1. cbn [ret].
    configure_cases.
    all: rewrite <- ?app_assoc in *;
      eexists _, _, c; unfold after_calls; (split; [reflexivity|]).
    all: steps_case P.
Qed.

(** *** Sequences of calls on one scope *)

Lemma socket_creations_app (e1 e2 : list zmq_event) :
  socket_creations (e1 ++ e2)
  = (socket_creations e1 + socket_creations e2)%nat.
Proof.
  unfold socket_creations. now rewrite filter_app, length_app.
Qed.

Lemma spends_nothing (cf : ngx_http_brokerlog_element_conf_t) (w w' : world)
      (r : result world ngx_http_brokerlog_element_conf_t) :
  calls w' = calls w ->
  r = Val cf w' \/ r = Undef w' ->
  spends cf w r.
Proof.
  intros Hcalls [->| ->]; exists []; cbn [final]; rewrite app_nil_r;
    (split; [assumption|cbn; lia]).
Qed.

Lemma zmq_create_socket_spends
      (cf : ngx_http_brokerlog_element_conf_t) (w : world) :
  spends cf w (step lib NGX_DEBUG ZMQ_NGINX_LINGER ZMQ_NGINX_QUEUE_LENGTH
                    Create_socket cf w).
Proof.
  pose proof (copy_connection_calls cf w) as Hcopy.
  remember (step lib NGX_DEBUG ZMQ_NGINX_LINGER ZMQ_NGINX_QUEUE_LENGTH
                 Create_socket cf w) as r eqn:Hr.
  symmetry in Hr. revert Hr.
  unfold step. unfold bind at 1.
  unfold zmq_create_socket. unfold bind at 1.
  destruct (copy_connection cf w) as [conn w1|w1]; cbn [final] in Hcopy;
    [|intros <-; now apply (spends_nothing cf w w1); [|right]].
  unfold bind at 1.
  destruct (cf_ctx cf) as [c|] eqn:Hc; cbn [lift ret undef];
    [|intros <-; now apply (spends_nothing cf w w1); [|right]].
  destruct (log c) as [l|] eqn:Hlog;
    [|with_log Hlog; unfold bind at 1; cbn [undef];
      intros <-; now apply (spends_nothing cf w w1); [|right]].
  cbv zeta. rewrite capacity_applied. with_log Hlog.
  unfold bind at 1. cbn [ret].
  destruct (zmq_context c) as [context|] eqn:Hx;
    [|unfold bind; cbn [ret]; intros <-;
      now apply (spends_nothing cf w w1); [|left]].
  unfold spends, creations_left. rewrite Hc.
  destruct (Z.eqb_spec (screated c) 0) as [Es|Es].
  - unfold bind at 1 2. cbn [ret]. unfold zmq_socket_.
    destruct (answer_socket lib (calls w1) context ZMQ_PUB) as [s|] eqn:A;
      cbn [zmq_socket set_zmq_socket].
    + set (c1 := set_screated (set_zmq_socket c (Some s)) 1).
      configure_cases.
      all: intros <-; unfold ret; cbn [final snd calls cf_ctx set_ctx];
        rewrite <- ?app_assoc, Hcopy;
        eexists; (split; [reflexivity|]);
        unfold socket_creations; simpl filter; simpl length;
        subst c1; cbn [screated set_screated Z.eqb]; lia.
    + unfold bind. cbn [ret]. intros <-. unfold ret.
      cbn [final snd calls cf_ctx set_ctx]. rewrite Hcopy.
      eexists; (split; [reflexivity|]).
      cbn [screated set_zmq_socket]. rewrite Es. cbn. lia.
  - configure_cases.
    all: intros <-; unfold ret; cbn [final snd calls cf_ctx set_ctx];
      rewrite <- ?app_assoc, Hcopy;
      eexists; (split; [reflexivity|]);
      unfold socket_creations; simpl filter; simpl length;
      destruct (Z.eqb_spec (screated c) 0); [contradiction|lia].
Qed.

(** Without a log, [zmq_init_ctx] stops in a diagnostic, before or after
    the library was asked for an engine. *)
Lemma zmq_init_ctx_no_log (c : ngx_http_brokerlog_ctx_t) (w : world) :
  log c = None ->
  zmq_init_ctx lib NGX_DEBUG c w = Undef w
  \/ exists r,
      zmq_init_ctx lib NGX_DEBUG c w
      = Undef (after_calls w [Ev_init (to_int (iothreads c)) r]).
Proof.
  intros Hlog. unfold zmq_init_ctx, bind, zmq_init.
  cbn [log zmq_context set_zmq_context set_ccreated]. rewrite Hlog.
  destruct (ngx_log_debug0_cases None w) as [E|E]; rewrite E; [|now left].
  right. cbn [ngx_log_debug through_log undef].
  destruct (answer_init lib (calls w) (to_int (iothreads c)));
    eexists; reflexivity.
Qed.

Lemma zmq_create_ctx_spends
      (cf : ngx_http_brokerlog_element_conf_t) (w : world) :
  spends cf w (step lib NGX_DEBUG ZMQ_NGINX_LINGER ZMQ_NGINX_QUEUE_LENGTH
                    Create_ctx cf w).
Proof.
  unfold step. unfold bind at 1.
  destruct (cf_ctx cf) as [c|] eqn:Hc.
  - destruct (Z.eq_dec (ccreated c) 1) as [Hflag|Hflag].
    + rewrite (zmq_create_ctx_flagged cf c w Hc Hflag).
      destruct (ngx_log_debug0 NGX_DEBUG (log c) w); cbn [snd ret].
      * now apply (spends_nothing cf w w); [|left].
      * now apply (spends_nothing cf w w); [|right].
    + destruct (log c) as [l|] eqn:Hlog.
      * rewrite (zmq_create_ctx_unflagged cf c l w Hc Hflag Hlog).
        exists [Ev_init (to_int (cf_iothreads cf))
                        (answer_init lib (calls w) (to_int (cf_iothreads cf)))].
        destruct (answer_init lib (calls w) (to_int (cf_iothreads cf)));
          cbn [snd ret final after_calls calls]; (split; [reflexivity|]);
          unfold creations_left; rewrite Hc; cbn; lia.
      * unfold zmq_create_ctx. rewrite Hc.
        replace (ccreated c =? 1) with false
          by (symmetry; apply Z.eqb_neq; exact Hflag).
        unfold bind at 1.
        destruct (zmq_init_ctx_no_log (set_iothreads c (cf_iothreads cf)) w
                    Hlog) as [E|[r E]]; rewrite E.
        -- now apply (spends_nothing cf w w); [|right].
        -- eexists. split; [reflexivity|]. cbn. lia.
  - unfold zmq_create_ctx. rewrite Hc. unfold bind.
    destruct (ngx_log_debug0_cases None w) as [E|E]; rewrite E; cbn [snd ret].
    + now apply (spends_nothing cf w w); [|left].
    + now apply (spends_nothing cf w w); [|right].
Qed.

Lemma zmq_term_ctx_spends
      (cf : ngx_http_brokerlog_element_conf_t) (w : world) :
  spends cf w (step lib NGX_DEBUG ZMQ_NGINX_LINGER ZMQ_NGINX_QUEUE_LENGTH
                    Term_ctx cf w).
Proof.
  unfold step, bind.
  destruct (cf_ctx cf) as [c|] eqn:Hc; cbn [lift ret undef];
    [|now apply (spends_nothing cf w w); [|right]].
  rewrite zmq_term_ctx_result.
  exists (closing c ++ terminating c). split; [reflexivity|].
  unfold creations_left. rewrite Hc. cbn [cf_ctx set_ctx screated torn_down].
  unfold closing, terminating.
  destruct (zmq_socket c), (zmq_context c); cbn; lia.
Qed.

Lemma step_spends (o : op) (cf : ngx_http_brokerlog_element_conf_t)
      (w : world) :
  spends cf w (step lib NGX_DEBUG ZMQ_NGINX_LINGER ZMQ_NGINX_QUEUE_LENGTH
                    o cf w).
Proof.
  destruct o;
    [apply zmq_create_ctx_spends | apply zmq_create_socket_spends
     | apply zmq_term_ctx_spends].
Qed.

(** Over any sequence of calls, a scope creates no more sockets than its
    creation flag allows. *)
Lemma run_spends (ops : list op) :
  forall (cf : ngx_http_brokerlog_element_conf_t) (w : world),
    spends cf w (run lib NGX_DEBUG ZMQ_NGINX_LINGER ZMQ_NGINX_QUEUE_LENGTH
                     ops cf w).
Proof.
  induction ops as [|o ops IH]; intros cf w.
  - now apply (spends_nothing cf w w); [|left].
  - cbn [run]. unfold bind.
    destruct (step_spends o cf w) as (e1 & Hcalls & Hle).
    destruct (step lib NGX_DEBUG ZMQ_NGINX_LINGER ZMQ_NGINX_QUEUE_LENGTH
                   o cf w)
      as [cf' w'|w']; cbn [final] in Hcalls.
    + destruct (IH cf' w') as (e2 & Hcalls2 & Hle2).
      exists (e1 ++ e2). split.
      * now rewrite Hcalls2, Hcalls, app_assoc.
      * rewrite socket_creations_app. lia.
    + exists e1. now split.
Qed.

Lemma creations_left_le_1 (cf : ngx_http_brokerlog_element_conf_t) :
  (creations_left cf <= 1)%nat.
Proof.
  unfold creations_left.
  destruct (cf_ctx cf) as [c|]; [destruct (screated c =? 0)|]; lia.
Qed.

(** *** After teardown *)

Lemma step_terminated (o : op)
      (cf : ngx_http_brokerlog_element_conf_t) (w : world) :
  terminated cf ->
  match step lib NGX_DEBUG ZMQ_NGINX_LINGER ZMQ_NGINX_QUEUE_LENGTH o cf w with
  | Val cf' w' => terminated cf' /\ calls w' = calls w
  | Undef w' => calls w' = calls w
  end.
Proof.
  intros (c & Hc & Hflag & Hx & Hs). destruct o; unfold step, bind.
  - rewrite (zmq_create_ctx_flagged cf c w Hc Hflag).
    destruct (ngx_log_debug0 NGX_DEBUG (log c) w); [|reflexivity].
    cbn [snd ret]. split; [now exists c|reflexivity].
  - pose proof (zmq_create_socket_without_context_silent cf c w Hc Hx) as E.
    destruct (zmq_create_socket lib NGX_DEBUG ZMQ_NGINX_LINGER
                                ZMQ_NGINX_QUEUE_LENGTH cf w)
      as [r w'|w']; [|exact E].
    destruct E as [-> E]. cbn [snd ret]. split; [now exists c|exact E].
  - rewrite Hc. cbn [lift ret]. rewrite zmq_term_ctx_result.
    unfold closing, terminating. rewrite Hs, Hx. cbn [app].
    rewrite after_calls_nil. split; [|reflexivity].
    exists (torn_down c). now repeat split.
Qed.

Lemma run_terminated (ops : list op) :
  forall (cf : ngx_http_brokerlog_element_conf_t) (w : world),
    terminated cf ->
    calls (final (run lib NGX_DEBUG ZMQ_NGINX_LINGER ZMQ_NGINX_QUEUE_LENGTH
                      ops cf w))
    = calls w.
Proof.
  induction ops as [|o ops IH]; intros cf w Ht; [reflexivity|].
  cbn [run]. unfold bind.
  pose proof (step_terminated o cf w Ht) as H.
  destruct (step lib NGX_DEBUG ZMQ_NGINX_LINGER ZMQ_NGINX_QUEUE_LENGTH o cf w)
    as [cf' w'|w']; [|exact H].
  destruct H as [Ht' E]. now rewrite (IH cf' w' Ht').
Qed.

(** *** The claims on zmq_create_socket *)

Lemma ensureSocket_socket_functional
      (h : list zmq_event) (context : handle)
      (c c1 c2 : ngx_http_brokerlog_ctx_t) (e1 e2 : list zmq_event) :
  ensureSocket_socket lib h context c e1 c1 ->
  ensureSocket_socket lib h context c e2 c2 ->
  e1 = e2 /\ c1 = c2.
Proof.
  intros H1 H2.
  inversion H1 as [s1 F1 A1|F1]; inversion H2 as [s2 F2 A2|F2]; subst;
    try contradiction.
  - rewrite A1 in A2. inversion A2; subst. now split.
  - now split.
Qed.

Lemma ensureSocket_steps_reapplied
      (h : list zmq_event) (l q : Z) (context : handle) (addr : list byte)
      (c c' : ngx_http_brokerlog_ctx_t) (evs : list zmq_event) (rc : Z) :
  ensureSocket_steps lib h l q context addr c evs rc c' ->
  screated c <> 0 ->
  c' = c
  /\ socket_creations evs = 0%nat
  /\ exists rest,
      evs = Ev_setsockopt (zmq_socket c) ZMQ_LINGER l 4
              (answer_setsockopt lib h (zmq_socket c) ZMQ_LINGER l 4)
            :: rest.
Proof.
  intros H Hflag.
  inversion H as [E A|e c1 r P A Hr|e c1 r P A1 A Hr|e c1 r P A1 A2 A Hr
                  |e c1 P A1 A2 A]; subst;
    try contradiction;
    inversion P; subst; try contradiction;
    rewrite ?app_nil_r in *; cbn [app]; rewrite ?A1;
    (split; [reflexivity|]); (split; [reflexivity|]);
    eexists; reflexivity.
Qed.

Lemma ensureSocket_steps_values
      (h : list zmq_event) (l q : Z) (context : handle) (addr : list byte)
      (c c' : ngx_http_brokerlog_ctx_t) (evs : list zmq_event) (rc : Z) :
  ensureSocket_steps lib h l q context addr c evs rc c' ->
  (forall s v n r, In (Ev_setsockopt s ZMQ_HWM v n r) evs -> v = q /\ n = 8)
  /\ (forall s v n r,
        In (Ev_setsockopt s ZMQ_LINGER v n r) evs -> v = l /\ n = 4)
  /\ (forall s a r,
        In (Ev_connect s a r) evs ->
        exists pre,
          evs = pre ++ [Ev_setsockopt s ZMQ_LINGER l 4 0;
                        Ev_setsockopt s ZMQ_HWM q 8 0;
                        Ev_connect s a r]).
Proof.
  intros H.
  inversion H as [E A|e c1 r P A Hr|e c1 r P A1 A Hr|e c1 r P A1 A2 A Hr
                  |e c1 P A1 A2 A];
    try (inversion P as [s0 F0 B0|F0]); cbn [app].
  all: clear H; try clear P;
    repeat match goal with
           | H : answer_socket _ _ _ _ = _ |- _ => clear H
           | H : answer_setsockopt _ _ _ _ _ _ = _ |- _ => clear H
           | H : answer_connect _ _ _ _ = _ |- _ => clear H
           end;
    subst;
    cbn [zmq_socket set_screated set_zmq_socket app] in *;
    repeat split; intros;
    repeat match goal with
           | H : In _ (_ :: _) |- _ => destruct H as [H|H]
           | H : In _ [] |- _ => destruct H
           | H : Ev_socket _ _ _ = _ |- _ => discriminate H
           | H : Ev_setsockopt _ _ _ _ _ = _ |- _ =>
               first [discriminate H | inversion H; clear H; subst]
           | H : Ev_connect _ _ _ = _ |- _ =>
               first [discriminate H | inversion H; clear H; subst]
           end;
    try reflexivity.
  all: first [eexists [_]; reflexivity | exists []; reflexivity].
Qed.

(** With a library that serves every call, every step is taken and
    accepted. *)
Lemma ensureSocket_steps_served
      (h : list zmq_event) (l q : Z) (context : handle) (addr : list byte)
      (c c' : ngx_http_brokerlog_ctx_t) (evs : list zmq_event) (rc : Z) :
  always_up lib ->
  ensureSocket_steps lib h l q context addr c evs rc c' ->
  rc = 0
  /\ exists sock,
      ensureSocket_socket lib h context c sock c'
      /\ evs = sock ++ [Ev_setsockopt (zmq_socket c') ZMQ_LINGER l 4 0;
                        Ev_setsockopt (zmq_socket c') ZMQ_HWM q 8 0;
                        Ev_connect (zmq_socket c') addr 0].
Proof.
  intros (_ & As & Ao & Ac) H.
  inversion H as [E A|e c1 r P A Hr|e c1 r P A1 A Hr|e c1 r P A1 A2 A Hr
                  |e c1 P A1 A2 A]; subst.
  - now apply As in A.
  - exfalso. apply Hr, Ao.
  - exfalso. apply Hr, Ao.
  - exfalso. apply Hr, Ac.
  - split; [reflexivity|]. exists e. now split.
Qed.

Lemma ensureSocket_steps_served_on
      (h : list zmq_event) (l q : Z) (context : handle) (addr : list byte)
      (c c' c1 : ngx_http_brokerlog_ctx_t) (evs sock : list zmq_event)
      (rc : Z) :
  always_up lib ->
  ensureSocket_steps lib h l q context addr c evs rc c' ->
  ensureSocket_socket lib h context c sock c1 ->
  rc = 0
  /\ c' = c1
  /\ evs = sock ++ [Ev_setsockopt (zmq_socket c1) ZMQ_LINGER l 4 0;
                    Ev_setsockopt (zmq_socket c1) ZMQ_HWM q 8 0;
                    Ev_connect (zmq_socket c1) addr 0].
Proof.
  intros Hup H Q.
  destruct (ensureSocket_steps_served _ _ _ _ _ _ _ _ _ Hup H)
    as (Hrc & sock' & P & Hevs).
  destruct (ensureSocket_socket_functional _ _ _ _ _ _ _ P Q) as [-> ->].
  now repeat split.
Qed.

(** Once the socket is there, the options and the connection are asked for
    one after the other, each with the answer of the library deciding
    whether the next is asked. *)
Lemma ensureSocket_steps_applied
      (h : list zmq_event) (l q : Z) (context : handle) (addr : list byte)
      (c c' : ngx_http_brokerlog_ctx_t) (evs : list zmq_event) (rc : Z) :
  ensureSocket_steps lib h l q context addr c evs rc c' ->
  forall sock c1,
    ensureSocket_socket lib h context c sock c1 ->
    c' = c1
    /\ exists r1 rest,
        evs = sock ++ Ev_setsockopt (zmq_socket c1) ZMQ_LINGER l 4 r1 :: rest
        /\ r1 = answer_setsockopt lib (h ++ sock) (zmq_socket c1)
                                  ZMQ_LINGER l 4
        /\ (r1 <> 0 -> rest = [] /\ rc = -1)
        /\ (r1 = 0 ->
            exists r2 rest',
              rest = Ev_setsockopt (zmq_socket c1) ZMQ_HWM q 8 r2 :: rest'
              /\ r2 = answer_setsockopt lib
                        (h ++ sock
                           ++ [Ev_setsockopt (zmq_socket c1) ZMQ_LINGER
                                             l 4 0])
                        (zmq_socket c1) ZMQ_HWM q 8
              /\ (r2 <> 0 -> rest' = [] /\ rc = -1)
              /\ (r2 = 0 ->
                  exists r3,
                    rest' = [Ev_connect (zmq_socket c1) addr r3]
                    /\ r3 = answer_connect lib
                              (h ++ sock
                                 ++ [Ev_setsockopt (zmq_socket c1)
                                                   ZMQ_LINGER l 4 0;
                                     Ev_setsockopt (zmq_socket c1)
                                                   ZMQ_HWM q 8 0])
                              (zmq_socket c1) addr
                    /\ rc = if r3 =? 0 then 0 else -1)).
Proof.
  intros H sock c1 Q.
  inversion H as [E A|e c0 r P A Hr|e c0 r P A1 A Hr|e c0 r P A1 A2 A Hr
                  |e c0 P A1 A2 A]; subst.
  - inversion Q as [s F B|F]; subst; [congruence|contradiction].
  - destruct (ensureSocket_socket_functional _ _ _ _ _ _ _ P Q) as [-> ->].
    split; [reflexivity|]. eexists _, []. split; [reflexivity|].
    split; [reflexivity|]. split; [now split|]. intros Z0. contradiction.
  - destruct (ensureSocket_socket_functional _ _ _ _ _ _ _ P Q) as [-> ->].
    split; [reflexivity|]. eexists 0, [_]. split; [reflexivity|].
    split; [now rewrite A1|]. split; [intros Z0; now elim Z0|]. intros _.
    eexists _, []. split; [reflexivity|]. split; [reflexivity|].
    split; [now split|]. intros Z0. contradiction.
  - destruct (ensureSocket_socket_functional _ _ _ _ _ _ _ P Q) as [-> ->].
    split; [reflexivity|]. eexists 0, [_; _]. split; [reflexivity|].
    split; [now rewrite A1|]. split; [intros Z0; now elim Z0|]. intros _.
    eexists 0, [_]. split; [reflexivity|]. split; [now rewrite A2|].
    split; [intros Z0; now elim Z0|]. intros _.
    eexists. split; [reflexivity|]. split; [reflexivity|].
    destruct (Z.eqb_spec
                (answer_connect lib
                   (h ++ sock
                      ++ [Ev_setsockopt (zmq_socket c1) ZMQ_LINGER l 4 0;
                          Ev_setsockopt (zmq_socket c1) ZMQ_HWM q 8 0])
                   (zmq_socket c1) addr) 0); [contradiction|reflexivity].
  - destruct (ensureSocket_socket_functional _ _ _ _ _ _ _ P Q) as [-> ->].
    split; [reflexivity|]. eexists 0, [_; _]. split; [reflexivity|].
    split; [now rewrite A1|]. split; [intros Z0; now elim Z0|]. intros _.
    eexists 0, [_]. split; [reflexivity|]. split; [now rewrite A2|].
    split; [intros Z0; now elim Z0|]. intros _.
    exists 0. split; [reflexivity|]. split; [now rewrite A|]. reflexivity.
Qed.

(** C3.  With a context in place, a log to write to and the destination
    copied, [zmq_create_socket] returns, and what it asks of the library
    is what the ordered steps of [ensureSocket] ask, with the answers the
    library gives: the socket is asked for only when the creation flag
    reads 0, and the flag is set once the library has handed one out;
    linger, then the queue capacity, then the connection are applied to
    the socket, each only after the library accepted every step before
    it, and the first step the library refuses ends the call with -1.
    With a library that serves every call, all of the steps are taken and
    the call returns 0.  When the flag reads 0 the first call is the
    creation of a socket on the context of the scope; when the flag is
    already set no socket is created, the scope is left as it was and the
    call starts again with the linger option on the socket of the scope.
    Over any sequence of calls on one scope the library creates at most
    one socket, and none once the flag is set. *)
Theorem zmq_create_socket_ordered
        (cf : ngx_http_brokerlog_element_conf_t)
        (c : ngx_http_brokerlog_ctx_t) (context : handle) (l : ngx_log_t)
        (w w1 : world) (conn : block) (addr : list byte) :
  cf_ctx cf = Some c ->
  zmq_context c = Some context ->
  log c = Some l ->
  copy_connection cf w = Val conn w1 ->
  c_string conn = Some addr ->
  let linger := to_int ZMQ_NGINX_LINGER in
  let capacity := queue_capacity ZMQ_NGINX_QUEUE_LENGTH (cf_qlen cf) in
  (exists evs rc c',
      zmq_create_socket lib NGX_DEBUG ZMQ_NGINX_LINGER ZMQ_NGINX_QUEUE_LENGTH
                        cf w
      = Val (rc, set_ctx cf c') (after_calls w1 evs)
      /\ ensureSocket_steps lib (calls w1) linger capacity
                            context addr c evs rc c'
      /\ (always_up lib ->
          rc = 0
          /\ exists sock,
              ensureSocket_socket lib (calls w1) context c sock c'
              /\ evs = sock
                         ++ [Ev_setsockopt (zmq_socket c') ZMQ_LINGER
                                           linger 4 0;
                             Ev_setsockopt (zmq_socket c') ZMQ_HWM
                                           capacity 8 0;
                             Ev_connect (zmq_socket c') addr 0])
      /\ (screated c = 0 ->
          match answer_socket lib (calls w1) context ZMQ_PUB with
          | Some s =>
              zmq_socket c' = Some s /\ screated c' = 1
              /\ (exists rest,
                     evs = Ev_socket context ZMQ_PUB (Some s) :: rest)
              /\ (always_up lib ->
                  rc = 0
                  /\ evs = [Ev_socket context ZMQ_PUB (Some s);
                            Ev_setsockopt (Some s) ZMQ_LINGER linger 4 0;
                            Ev_setsockopt (Some s) ZMQ_HWM capacity 8 0;
                            Ev_connect (Some s) addr 0])
          | None =>
              evs = [Ev_socket context ZMQ_PUB None] /\ rc = -1
              /\ screated c' = 0
          end)
      /\ (screated c <> 0 ->
          c' = c
          /\ socket_creations evs = 0%nat
          /\ (exists rest,
                 evs = Ev_setsockopt (zmq_socket c) ZMQ_LINGER linger 4
                         (answer_setsockopt lib (calls w1) (zmq_socket c)
                                            ZMQ_LINGER linger 4)
                       :: rest)
          /\ (always_up lib ->
              rc = 0
              /\ evs = [Ev_setsockopt (zmq_socket c) ZMQ_LINGER linger 4 0;
                        Ev_setsockopt (zmq_socket c) ZMQ_HWM capacity 8 0;
                        Ev_connect (zmq_socket c) addr 0])))
  /\ (forall ops cf0 w0,
        exists evs,
          calls (final (run lib NGX_DEBUG ZMQ_NGINX_LINGER
                            ZMQ_NGINX_QUEUE_LENGTH ops cf0 w0))
          = calls w0 ++ evs
          /\ (socket_creations evs <= creations_left cf0 <= 1)%nat).
Proof.
  intros Hc Hx Hlog Hcopy Haddr linger capacity. split.
  - destruct (zmq_create_socket_steps cf c context l w w1 conn addr
                Hc Hx Hlog Hcopy Haddr) as (evs & rc & c' & E & S).
    fold linger capacity in S.
    exists evs, rc, c'. split; [exact E|]. split; [exact S|].
    split; [|split].
    + intros Hup. exact (ensureSocket_steps_served _ _ _ _ _ _ _ _ _ Hup S).
    + intros Es.
      destruct (answer_socket lib (calls w1) context ZMQ_PUB) as [s|] eqn:A.
      * pose proof (Socket_created lib (calls w1) context c s Es A) as P.
        destruct (ensureSocket_steps_applied _ _ _ _ _ _ _ _ _ S _ _ P)
          as (Hc' & r1 & rest & Hevs & _).
        split; [now rewrite Hc'|]. split; [now rewrite Hc'|].
        split; [rewrite Hevs; now eexists|].
        intros Hup.
        destruct (ensureSocket_steps_served_on _ _ _ _ _ _ _ _ _ _ _
                    Hup S P) as (Hrc & _ & Hall).
        now split.
      * inversion S as [E0 A0|e c1 r P A0 Hr|e c1 r P A1 A0 Hr
                        |e c1 r P A1 A2 A0 Hr|e c1 P A1 A2 A0]; subst;
          try (inversion P as [s0 F0 B0|F0]; subst;
               [congruence|contradiction]).
        now repeat split.
    + intros Es.
      destruct (ensureSocket_steps_reapplied _ _ _ _ _ _ _ _ _ S Es)
        as (Hc' & Hnone & Hfirst).
      repeat (split; [assumption|]).
      intros Hup.
      destruct (ensureSocket_steps_served_on _ _ _ _ _ _ _ _ _ _ _
                  Hup S (Socket_kept lib (calls w1) context c Es))
        as (Hrc & _ & Hall).
      now split.
  - intros ops cf0 w0.
    destruct (run_spends ops cf0 w0) as (evs & Hcalls & Hle).
    exists evs. split; [exact Hcalls|].
    pose proof (creations_left_le_1 cf0). lia.
Qed.

(** C9.  In [zmq_create_socket] the queue capacity given to the socket is
    the default [ZMQ_NGINX_QUEUE_LENGTH] when the configured value equals
    that default and the configured value otherwise (as the [uint64_t]
    the option takes; either way it is the configured value converted),
    and the linger value is the default [ZMQ_NGINX_LINGER].  Both are
    applied: once the socket is there, the first request is the linger
    option with the default; when the library accepts it, the next is the
    capacity option with the capacity above; when the library accepts
    that, the next and last is the connection, so that linger is applied
    before any connect.  A request the library refuses ends the call
    with -1.  Every capacity and every linger value the library sees are
    these, and a connection is only asked for right after both have been
    set with success on the same socket. *)
Theorem zmq_create_socket_defaults
        (cf : ngx_http_brokerlog_element_conf_t)
        (c : ngx_http_brokerlog_ctx_t) (context : handle) (l : ngx_log_t)
        (w w1 : world) (conn : block) (addr : list byte) :
  cf_ctx cf = Some c ->
  zmq_context c = Some context ->
  log c = Some l ->
  copy_connection cf w = Val conn w1 ->
  c_string conn = Some addr ->
  let capacity :=
    to_uint64_t (if cf_qlen cf =? ZMQ_NGINX_QUEUE_LENGTH
                 then ZMQ_NGINX_QUEUE_LENGTH else cf_qlen cf) in
  let linger := to_int ZMQ_NGINX_LINGER in
  exists evs rc c',
    zmq_create_socket lib NGX_DEBUG ZMQ_NGINX_LINGER ZMQ_NGINX_QUEUE_LENGTH
                      cf w
    = Val (rc, set_ctx cf c') (after_calls w1 evs)
    /\ capacity = to_uint64_t (cf_qlen cf)
    /\ (forall sock c1,
          ensureSocket_socket lib (calls w1) context c sock c1 ->
          c' = c1
          /\ exists r1 rest,
              evs = sock
                      ++ Ev_setsockopt (zmq_socket c1) ZMQ_LINGER linger 4 r1
                      :: rest
              /\ r1 = answer_setsockopt lib (calls w1 ++ sock)
                                        (zmq_socket c1) ZMQ_LINGER linger 4
              /\ (r1 <> 0 -> rest = [] /\ rc = -1)
              /\ (r1 = 0 ->
                  exists r2 rest',
                    rest = Ev_setsockopt (zmq_socket c1) ZMQ_HWM capacity 8 r2
                           :: rest'
                    /\ r2 = answer_setsockopt lib
                              (calls w1 ++ sock
                                 ++ [Ev_setsockopt (zmq_socket c1)
                                                   ZMQ_LINGER linger 4 0])
                              (zmq_socket c1) ZMQ_HWM capacity 8
                    /\ (r2 <> 0 -> rest' = [] /\ rc = -1)
                    /\ (r2 = 0 ->
                        exists r3,
                          rest' = [Ev_connect (zmq_socket c1) addr r3]
                          /\ r3 = answer_connect lib
                                    (calls w1 ++ sock
                                       ++ [Ev_setsockopt (zmq_socket c1)
                                             ZMQ_LINGER linger 4 0;
                                           Ev_setsockopt (zmq_socket c1)
                                             ZMQ_HWM capacity 8 0])
                                    (zmq_socket c1) addr
                          /\ rc = if r3 =? 0 then 0 else -1)))
    /\ (forall s v n r,
          In (Ev_setsockopt s ZMQ_HWM v n r) evs -> v = capacity /\ n = 8)
    /\ (forall s v n r,
          In (Ev_setsockopt s ZMQ_LINGER v n r) evs -> v = linger /\ n = 4)
    /\ (forall s a r,
          In (Ev_connect s a r) evs ->
          exists pre,
            evs = pre ++ [Ev_setsockopt s ZMQ_LINGER linger 4 0;
                          Ev_setsockopt s ZMQ_HWM capacity 8 0;
                          Ev_connect s a r])
    /\ (rc = 0 /\ (exists pre s,
                      evs = pre ++ [Ev_setsockopt s ZMQ_LINGER linger 4 0;
                                    Ev_setsockopt s ZMQ_HWM capacity 8 0;
                                    Ev_connect s addr 0])
        \/ rc = -1).
Proof.
  intros Hc Hx Hlog Hcopy Haddr capacity linger.
  destruct (zmq_create_socket_steps cf c context l w w1 conn addr
              Hc Hx Hlog Hcopy Haddr) as (evs & rc & c' & E & S).
  change (queue_capacity ZMQ_NGINX_QUEUE_LENGTH (cf_qlen cf))
    with capacity in S.
  fold linger in S.
  exists evs, rc, c'. split; [exact E|]. split.
  { subst capacity.
    destruct (Z.eqb_spec (cf_qlen cf) ZMQ_NGINX_QUEUE_LENGTH) as [->|];
      reflexivity. }
  split; [exact (ensureSocket_steps_applied _ _ _ _ _ _ _ _ _ S)|].
  destruct (ensureSocket_steps_values _ _ _ _ _ _ _ _ _ S) as (H1 & H2 & H3).
  repeat (split; [assumption|]).
  inversion S; subst; try (now right).
  left. split; [reflexivity|]. now eexists _, _.
Qed.

(** In range, the capacity is the chosen value itself. *)
Lemma queue_capacity_in_range (configured : Z) :
  0 <= ZMQ_NGINX_QUEUE_LENGTH < 2 ^ 64 ->
  0 <= configured < 2 ^ 64 ->
  queue_capacity ZMQ_NGINX_QUEUE_LENGTH configured
  = if configured =? ZMQ_NGINX_QUEUE_LENGTH
    then ZMQ_NGINX_QUEUE_LENGTH else configured.
Proof.
  intros HQ Hc. unfold queue_capacity, to_uint64_t.
  destruct (configured =? ZMQ_NGINX_QUEUE_LENGTH);
    now apply Z.mod_small.
Qed.

(** C5, as amended.  After [zmq_term_ctx] has run on a scope whose context
    creation flag is set, the scope is not initialised again: a later
    [zmq_create_ctx] does not call the library (it returns 0 at once, and
    in a build with [NGX_DEBUG] stops in its diagnostic, the log being
    cleared), a later [zmq_create_socket] does not call the library and
    does not return (its diagnostic reads the cleared log), and no
    sequence of life-cycle calls makes the library be called again, so
    that neither an engine nor a socket is created. *)
Theorem zmq_term_ctx_absorbing
        (cf : ngx_http_brokerlog_element_conf_t)
        (c : ngx_http_brokerlog_ctx_t) (w : world) :
  ccreated c = 1 ->
  exists c' w',
    zmq_term_ctx c w = Val c' w'
    /\ terminated (set_ctx cf c')
    /\ (forall w0,
          zmq_create_ctx lib NGX_DEBUG (Some (set_ctx cf c')) w0
          = if NGX_DEBUG then Undef w0
            else Val (0, Some (set_ctx cf c')) w0)
    /\ (forall w0,
          exists w1,
            zmq_create_socket lib NGX_DEBUG ZMQ_NGINX_LINGER
                              ZMQ_NGINX_QUEUE_LENGTH (set_ctx cf c') w0
            = Undef w1
            /\ calls w1 = calls w0)
    /\ (forall ops w0,
          calls (final (run lib NGX_DEBUG ZMQ_NGINX_LINGER
                            ZMQ_NGINX_QUEUE_LENGTH ops (set_ctx cf c') w0))
          = calls w0).
Proof.
  intros Hflag.
  exists (torn_down c), (after_calls w (closing c ++ terminating c)).
  assert (Ht : terminated (set_ctx cf (torn_down c)))
    by (exists (torn_down c); now repeat split).
  split; [apply zmq_term_ctx_result|]. split; [exact Ht|].
  split; [|split].
  - intros w0.
    rewrite (zmq_create_ctx_flagged (set_ctx cf (torn_down c)) (torn_down c)
               w0 eq_refl Hflag).
    unfold ngx_log_debug0. now destruct NGX_DEBUG.
  - intros w0.
    pose proof (copy_connection_calls (set_ctx cf (torn_down c)) w0) as E.
    unfold zmq_create_socket. unfold bind at 1.
    destruct (copy_connection (set_ctx cf (torn_down c)) w0)
      as [conn w1|w1]; cbn [final] in E; exists w1; now split.
  - intros ops w0. now apply run_terminated.
Qed.

End Lifecycle_facts.

(** ** The statements at sample scopes *)

Lemma zmq_create_ctx_idempotent_witness :
  cf_ctx (Samples.conf_of Samples.ready_ctx) = Some Samples.ready_ctx
  /\ ccreated Samples.ready_ctx = 1
  /\ (true = false \/ log Samples.ready_ctx <> None)
  /\ zmq_create_ctx Samples.lib_up true
                    (Some (Samples.conf_of Samples.ready_ctx)) Samples.quiet
     = Val (0, Some (Samples.conf_of Samples.ready_ctx)) Samples.quiet.
Proof.
  assert (Hlog : true = false \/ log Samples.ready_ctx <> None)
    by (right; discriminate).
  split; [reflexivity|]. split; [reflexivity|]. split; [exact Hlog|].
  exact (zmq_create_ctx_idempotent
           Samples.lib_up true (Samples.conf_of Samples.ready_ctx)
           Samples.ready_ctx Samples.quiet eq_refl eq_refl Hlog).
Defined.


Lemma zmq_create_socket_without_context_witness :
  cf_ctx (Samples.conf_of Samples.fresh_ctx) = Some Samples.fresh_ctx
  /\ zmq_context Samples.fresh_ctx = None
  /\ log Samples.fresh_ctx = Some 7%positive
  /\ copy_connection (Samples.conf_of Samples.fresh_ctx) Samples.quiet
     = Val (Samples.tcp_local ++ [x00]) Samples.quiet
  /\ zmq_create_socket Samples.lib_up false 0 1000
                       (Samples.conf_of Samples.fresh_ctx) Samples.quiet
     = Val (-1, Samples.conf_of Samples.fresh_ctx) Samples.quiet.
Proof.
  split; [reflexivity|]. split; [reflexivity|]. split; [reflexivity|].
  split; [reflexivity|].
  exact (proj1 (zmq_create_socket_without_context
                  Samples.lib_up false 0 1000
                  (Samples.conf_of Samples.fresh_ctx)
                  Samples.fresh_ctx 7%positive Samples.quiet Samples.quiet
                  (Samples.tcp_local ++ [x00])
                  eq_refl eq_refl eq_refl eq_refl)).
Defined.

Lemma zmq_create_socket_ordered_witness :
  cf_ctx (Samples.conf_of Samples.context_ctx) = Some Samples.context_ctx
  /\ zmq_context Samples.context_ctx = Some 1%positive
  /\ log Samples.context_ctx = Some 7%positive
  /\ copy_connection (Samples.conf_of Samples.context_ctx) Samples.quiet
     = Val (Samples.tcp_local ++ [x00]) Samples.quiet
  /\ c_string (Samples.tcp_local ++ [x00]) = Some Samples.tcp_local
  /\ always_up Samples.lib_up
  /\ screated Samples.context_ctx = 0
  /\ exists evs rc c',
      zmq_create_socket Samples.lib_up false 0 1000
                        (Samples.conf_of Samples.context_ctx) Samples.quiet
      = Val (rc, set_ctx (Samples.conf_of Samples.context_ctx) c')
            (after_calls Samples.quiet evs)
      /\ ensureSocket_steps Samples.lib_up (calls Samples.quiet)
                            (to_int 0) (queue_capacity 1000 1000)
                            1%positive Samples.tcp_local
                            Samples.context_ctx evs rc c'
      /\ zmq_socket c' = Some 2%positive
      /\ screated c' = 1
      /\ rc = 0
      /\ evs = [Ev_socket 1%positive ZMQ_PUB (Some 2%positive);
                Ev_setsockopt (Some 2%positive) ZMQ_LINGER 0 4 0;
                Ev_setsockopt (Some 2%positive) ZMQ_HWM 1000 8 0;
                Ev_connect (Some 2%positive) Samples.tcp_local 0].
Proof.
  assert (Hup : always_up Samples.lib_up)
    by (repeat split; intros; discriminate).
  split; [reflexivity|]. split; [reflexivity|]. split; [reflexivity|].
  split; [reflexivity|]. split; [reflexivity|]. split; [exact Hup|].
  split; [reflexivity|].
  destruct (zmq_create_socket_ordered
              Samples.lib_up false 0 1000
              (Samples.conf_of Samples.context_ctx)
              Samples.context_ctx 1%positive 7%positive
              Samples.quiet Samples.quiet
              (Samples.tcp_local ++ [x00]) Samples.tcp_local
              eq_refl eq_refl eq_refl eq_refl eq_refl)
    as [(evs & rc & c' & E & S & _ & Created & _) _].
  destruct (Created eq_refl) as (Hs & Hf & _ & Served).
  destruct (Served Hup) as (Hrc & Hevs).
  exists evs, rc, c'.
  split; [exact E|]. split; [exact S|]. split; [exact Hs|].
  split; [exact Hf|]. split; [exact Hrc | exact Hevs].
Defined.

Lemma zmq_create_socket_defaults_witness :
  cf_ctx (Samples.conf_of Samples.context_ctx) = Some Samples.context_ctx
  /\ zmq_context Samples.context_ctx = Some 1%positive
  /\ log Samples.context_ctx = Some 7%positive
  /\ copy_connection (Samples.conf_of Samples.context_ctx) Samples.quiet
     = Val (Samples.tcp_local ++ [x00]) Samples.quiet
  /\ c_string (Samples.tcp_local ++ [x00]) = Some Samples.tcp_local
  /\ zmq_create_socket Samples.lib_up false 0 1000
                       (Samples.conf_of Samples.context_ctx) Samples.quiet
     = Val (0, set_ctx (Samples.conf_of Samples.context_ctx)
                       Samples.ready_ctx)
           (after_calls Samples.quiet
              [Ev_socket 1%positive ZMQ_PUB (Some 2%positive);
               Ev_setsockopt (Some 2%positive) ZMQ_LINGER 0 4 0;
               Ev_setsockopt (Some 2%positive) ZMQ_HWM 1000 8 0;
               Ev_connect (Some 2%positive) Samples.tcp_local 0]).
Proof.
  split; [reflexivity|]. split; [reflexivity|]. split; [reflexivity|].
  split; [reflexivity|]. split; [reflexivity|].
  destruct (zmq_create_socket_defaults
              Samples.lib_up false 0 1000
              (Samples.conf_of Samples.context_ctx)
              Samples.context_ctx 1%positive 7%positive
              Samples.quiet Samples.quiet
              (Samples.tcp_local ++ [x00]) Samples.tcp_local
              eq_refl eq_refl eq_refl eq_refl eq_refl)
    as (evs & rc & c' & E & _ & Applied & _).
  destruct (Applied [Ev_socket 1%positive ZMQ_PUB (Some 2%positive)]
                    Samples.ready_ctx
                    (Socket_created Samples.lib_up (calls Samples.quiet)
                                    1%positive Samples.context_ctx
                                    2%positive eq_refl eq_refl))
    as (Hc' & r1 & rest & Hevs & Hr1 & _ & Linger_ok).
  destruct (Linger_ok Hr1) as (r2 & rest' & Hrest & Hr2 & _ & Capacity_ok).
  destruct (Capacity_ok Hr2) as (r3 & Hrest' & Hr3 & Hrc).
  rewrite E, Hc', Hevs, Hrest, Hrest', Hrc, Hr3, Hr2, Hr1.
  reflexivity.
Defined.

Lemma zmq_term_ctx_absorbing_witness :
  ccreated Samples.ready_ctx = 1
  /\ exists c' w',
      zmq_term_ctx Samples.ready_ctx Samples.quiet = Val c' w'
      /\ terminated (set_ctx (Samples.conf_of Samples.ready_ctx) c')
      /\ forall ops w0,
          calls (final (run Samples.lib_up false 0 1000 ops
                            (set_ctx (Samples.conf_of Samples.ready_ctx) c')
                            w0))
          = calls w0.
Proof.
  split; [reflexivity|].
  destruct (zmq_term_ctx_absorbing
              Samples.lib_up false 0 1000 (Samples.conf_of Samples.ready_ctx)
              Samples.ready_ctx Samples.quiet eq_refl)
    as (c' & w' & E & T & _ & _ & R).
  exists c', w'. split; [exact E|]. split; [exact T | exact R].
Defined.

(** C5 as stated does not hold for every scope.  On a scope whose context
    was never created (the creation flag reads 0) teardown leaves the flag
    at 0 and, in a build without [NGX_DEBUG], the [zmq_create_ctx] that
    follows has the library create an engine (the call then stops in the
    diagnostic of [zmq_init_ctx], the log being cleared). *)
Lemma zmq_term_ctx_absorbing_counterexample :
  let after_teardown :=
    {| log := None; zmq_context := None; zmq_socket := None;
       ccreated := 0; screated := 0; iothreads := 0 |} in
  zmq_term_ctx Samples.fresh_ctx Samples.quiet
  = Val after_teardown Samples.quiet
  /\ zmq_create_ctx Samples.lib_up false
                    (Some (Samples.conf_of after_teardown)) Samples.quiet
     = Undef (after_calls Samples.quiet [Ev_init 1 (Some 1%positive)]).
Proof.
  cbv zeta. split; vm_compute; reflexivity.
Qed.

(** The ready path: on a fresh scope with its log, [zmq_create_ctx] then
    [zmq_create_socket] bring up the engine and the socket. *)
Lemma lazy_initialisation_sample :
  let with_engine :=
    {| log := Some 7%positive; zmq_context := Some 1%positive;
       zmq_socket := None;
       ccreated := 1; screated := 0; iothreads := 1 |} in
  let with_socket :=
    {| log := Some 7%positive; zmq_context := Some 1%positive;
       zmq_socket := Some 2%positive;
       ccreated := 1; screated := 1; iothreads := 1 |} in
  let engine_call := Ev_init 1 (Some 1%positive) in
  zmq_create_ctx Samples.lib_up false
                 (Some (Samples.conf_of Samples.fresh_ctx)) Samples.quiet
  = Val (0, Some (Samples.conf_of with_engine))
        (after_calls Samples.quiet [engine_call])
  /\ zmq_create_socket Samples.lib_up false 0 1000
                       (Samples.conf_of with_engine)
                       (after_calls Samples.quiet [engine_call])
     = Val (0, Samples.conf_of with_socket)
           (after_calls Samples.quiet
              [engine_call;
               Ev_socket 1%positive ZMQ_PUB (Some 2%positive);
               Ev_setsockopt (Some 2%positive) ZMQ_LINGER 0 4 0;
               Ev_setsockopt (Some 2%positive) ZMQ_HWM 1000 8 0;
               Ev_connect (Some 2%positive) Samples.tcp_local 0]).
Proof.
  cbv zeta. split; vm_compute; reflexivity.
Qed.

(** * Further properties *)

(** ** The message framer, on any input *)

Lemma strnlen_bounds (s : block) :
  forall n l,
    strnlen s n = Some l ->
    (l <= n)%nat /\ (l <= length s)%nat /\ nul_free (firstn l s) = true.
Proof.
  induction s as [|b s IH]; intros [|n] l H; cbn in H.
  - inversion H; subst. now repeat split.
  - discriminate H.
  - inversion H; subst. repeat split; cbn; lia.
  - destruct (is_nul b) eqn:Hb.
    + inversion H; subst. repeat split; cbn; lia.
    + destruct (strnlen s n) as [l'|] eqn:E; [|discriminate H].
      inversion H; subst. destruct (IH n l' E) as (H1 & H2 & H3).
      split; [lia|]. split; [cbn; lia|].
      unfold nul_free in *. cbn [firstn forallb]. now rewrite Hb, H3.
Qed.

Lemma strnlen_stops (pre post : block) :
  forall n,
    nul_free pre = true -> (length pre < n)%nat ->
    strnlen (pre ++ x00 :: post) n = Some (length pre).
Proof.
  induction pre as [|b pre IH]; intros [|n] Hp Hn; cbn in *; try lia.
  - reflexivity.
  - apply andb_true_iff in Hp as [Hb Hp]. apply negb_true_iff in Hb.
    rewrite Hb, IH by (assumption || lia). reflexivity.
Qed.

Lemma firstn_repeat_byte (b : byte) (n m : nat) :
  (n <= m)%nat -> firstn n (repeat b m) = repeat b n.
Proof.
  revert m; induction n as [|n IH]; intros [|m] H; cbn; try lia;
    try reflexivity.
  now rewrite IH by lia.
Qed.

Lemma memcpy_length (d r : block) (src : pointer) (n : nat) :
  memcpy (Some d) src n = Some r -> length r = length d.
Proof.
  unfold memcpy. destruct src as [s|]; [|discriminate].
  destruct ((n <=? length d)%nat && (n <=? length s)%nat) eqn:E;
    [|discriminate].
  apply andb_true_iff in E as [E1 E2].
  apply Nat.leb_le in E1. apply Nat.leb_le in E2.
  intros H; inversion H; subst.
  rewrite length_app, length_firstn, length_skipn. lia.
Qed.

Lemma strncat_onto (k src : block) (m n l : nat) :
  nul_free k = true ->
  strnlen src n = Some l ->
  (l <= m)%nat ->
  strncat (k ++ x00 :: repeat x00 m) (Some src) n
  = Some (k ++ firstn l src ++ x00 :: repeat x00 (m - l)).
Proof.
  intros Hk Hsrc Hm. unfold strncat.
  rewrite (strlen_nul_free k _ Hk), Hsrc, length_app. simpl length.
  rewrite repeat_length.
  replace (length k + l + 1 <=? length k + S m)%nat with true
    by (symmetry; apply Nat.leb_le; lia).
  rewrite firstn_app, firstn_all, Nat.sub_diag, firstn_O, app_nil_r.
  rewrite skipn_app, skipn_all2 by lia. simpl app at 2.
  replace (length k + l + 1 - length k)%nat with (S l) by lia.
  simpl skipn. rewrite skipn_repeat_byte. reflexivity.
Qed.

Lemma memcpy_scratch (k p : block) (n j : nat) :
  n = (length k + length p + j)%nat ->
  memcpy (Some (repeat x00 n)) (Some (k ++ p ++ x00 :: repeat x00 j)) n
  = Some (k ++ p ++ repeat x00 j).
Proof.
  intros ->. unfold memcpy. rewrite repeat_length, !length_app.
  cbn [length]. rewrite repeat_length, Nat.leb_refl.
  replace (length k + length p + j <=? length k + (length p + S j))%nat
    with true by (symmetry; apply Nat.leb_le; lia).
  cbn [andb]. rewrite skipn_repeat_byte, Nat.sub_diag. cbn [repeat].
  rewrite app_nil_r.
  rewrite firstn_app, firstn_all2 by lia. f_equal.
  rewrite firstn_app, firstn_all2 by lia. f_equal.
  replace (length k + length p + j - length k - length p)%nat with j by lia.
  change (x00 :: repeat x00 j) with (repeat x00 (S j)).
  rewrite firstn_repeat_byte by lia. reflexivity.
Qed.

(** The frame in full generality: the first [ne] bytes of the endpoint
    block hold no NUL, the scan of the payload block stops after [l]
    bytes.  The frame is the endpoint bytes, the [l] payload bytes and
    NULs up to the announced length. *)
Lemma brokerlog_serialize_zmq_frame
      (eb pb : block) (ne np l : nat) (m : mem) :
  strnlen eb ne = Some ne ->
  strnlen pb np = Some l ->
  Z.of_nat ne + Z.of_nat np + 1 < 2 ^ 64 ->
  grants (libc m) 1 = true ->
  grants (pool m) 2 = true ->
  brokerlog_serialize_zmq {| len := Z.of_nat ne; data := Some eb |}
                          {| len := Z.of_nat np; data := Some pb |} m
  = Val NGX_OK
        {| libc := skipn 1 (libc m);
           pool := skipn 2 (pool m);
           output :=
             {| len := Z.of_nat ne + Z.of_nat np;
                data := Some (firstn ne eb ++ firstn l pb
                                     ++ repeat x00 (np - l)) |} |}.
Proof.
  intros He Hp Hlen Hl Hpool.
  destruct (strnlen_bounds eb ne ne He) as (_ & Hne & Hk).
  destruct (strnlen_bounds pb np l Hp) as (Hlnp & Hlpb & _).
  set (k := firstn ne eb) in *.
  assert (Lk : length k = ne) by (subst k; rewrite length_firstn; lia).
  destruct m as [h pl o]. cbn [libc pool] in *.
  destruct (next_alloc_grants h 0 Hl) as [Eh _].
  destruct (next_alloc_grants pl 1 Hpool) as [Ep1 Hp1].
  destruct (next_alloc_grants _ 0 Hp1) as [Ep2 _].
  unfold brokerlog_serialize_zmq. cbn [len data].
  rewrite !Nat2Z.id.
  rewrite (to_size_t_small (Z.of_nat ne + Z.of_nat np + 1)) by lia.
  replace (Z.of_nat ne + Z.of_nat np + 1 - 1)
    with (Z.of_nat ne + Z.of_nat np) by lia.
  rewrite (to_size_t_small (Z.of_nat ne + Z.of_nat np)) by lia.
  replace (Z.to_nat (Z.of_nat ne + Z.of_nat np + 1))
    with (S (ne + np)) by lia.
  unfold bind at 1. unfold strndup, bind. rewrite He.
  cbn [lift ret libc pool output]. rewrite Eh. fold k.
  rewrite <- Lk at 1. rewrite store_terminator.
  cbn [lift ret]. unfold ngx_pcalloc at 1.
  cbn [libc pool output]. rewrite Ep1.
  unfold strncat_ptr, bind.
  rewrite <- Lk at 2. rewrite strncat_fresh by (assumption || lia).
  cbn [lift ret].
  rewrite (strncat_onto k pb (ne + np - length k) np l Hk Hp) by lia.
  cbn [lift ret].
  unfold set_output_len, get_output, ngx_pcalloc, set_output_data.
  cbn [libc pool output len data]. rewrite Ep2.
  cbn [libc pool output len data].
  replace (Z.to_nat (Z.of_nat ne + Z.of_nat np)) with (ne + np)%nat by lia.
  replace (ne + np - length k - l)%nat with (np - l)%nat by lia.
  match goal with
  | |- context [memcpy ?d ?s ?n] =>
      replace (memcpy d s n)
        with (Some (k ++ firstn l pb ++ repeat x00 (np - l)))
        by (symmetry; apply memcpy_scratch; rewrite length_firstn; lia)
  end.
  replace (skipn 2 pl) with (skipn 1 (skipn 1 pl))
    by (destruct pl as [|? [|? ?]]; reflexivity).
  reflexivity.
Qed.

(** The scans stay within the counted bytes. *)
Lemma strnlen_view (bs more : block) :
  forall n, (n <= length bs)%nat -> strnlen (bs ++ more) n = strnlen bs n.
Proof.
  induction bs as [|b bs IH]; intros [|n] Hn; cbn in *; try lia;
    try reflexivity.
  destruct (is_nul b); [reflexivity|]. now rewrite IH by lia.
Qed.

Lemma firstn_view (bs more : block) (l : nat) :
  (l <= length bs)%nat -> firstn l (bs ++ more) = firstn l bs.
Proof.
  intros Hl. rewrite firstn_app.
  replace (l - length bs)%nat with 0%nat by lia.
  now rewrite firstn_O, app_nil_r.
Qed.

Lemma strndup_view (bs more : block) (m : mem) :
  strndup (Some (bs ++ more)) (length bs) m
  = strndup (Some bs) (length bs) m.
Proof.
  unfold strndup, bind. rewrite strnlen_view by lia.
  destruct (strnlen bs (length bs)) as [l|] eqn:E; cbn [lift ret undef];
    [|reflexivity].
  destruct (strnlen_bounds _ _ _ E) as (_ & Hl & _).
  now rewrite firstn_view.
Qed.

Lemma strncat_view (dest bs more : block) :
  strncat dest (Some (bs ++ more)) (length bs)
  = strncat dest (Some bs) (length bs).
Proof.
  unfold strncat. rewrite strnlen_view by lia.
  destruct (strlen dest) as [d|]; [|reflexivity].
  destruct (strnlen bs (length bs)) as [l|] eqn:E; [|reflexivity].
  destruct (strnlen_bounds _ _ _ E) as (_ & Hl & _).
  now rewrite firstn_view.
Qed.

Lemma bind_ext {S A B : Type} (m m' : M S A) (k k' : A -> M S B) (s : S) :
  m s = m' s ->
  (forall a s', k a s' = k' a s') ->
  bind m k s = bind m' k' s.
Proof.
  intros Hm Hk. unfold bind. rewrite <- Hm.
  destruct (m s); [apply Hk | reflexivity].
Qed.

(** X1.  [brokerlog_serialize_zmq] reads no more than [len] bytes of each
    of its inputs (the counted strings of nginx carry no terminator):
    when the endpoint and the data are the starts of longer blocks, the
    call does what it does on blocks that end after the counted bytes,
    whatever the bytes that follow.  In particular, when the counted bytes
    hold no NUL, the sizes fit [size_t] and the three allocations are
    granted, the frame is the endpoint bytes followed by the data bytes,
    and the bytes after them do not reach it. *)
Theorem brokerlog_serialize_zmq_reads_len
        (key payload more1 more2 : list byte) (m : mem) :
  brokerlog_serialize_zmq (ngx_view key more1) (ngx_view payload more2) m
  = brokerlog_serialize_zmq (ngx_string key) (ngx_string payload) m
  /\ (nul_free key = true ->
      nul_free payload = true ->
      Z.of_nat (length key) + Z.of_nat (length payload) + 1 < 2 ^ 64 ->
      grants (libc m) 1 = true ->
      grants (pool m) 2 = true ->
      brokerlog_serialize_zmq (ngx_view key more1) (ngx_view payload more2) m
      = Val NGX_OK
            {| libc := skipn 1 (libc m);
               pool := skipn 2 (pool m);
               output :=
                 {| len := Z.of_nat (length key)
                           + Z.of_nat (length payload);
                    data := Some (key ++ payload) |} |}).
Proof.
  split.
  - unfold brokerlog_serialize_zmq, ngx_view, ngx_string. cbn [len data].
    rewrite !Nat2Z.id.
    apply bind_ext; [apply strndup_view|].
    intros [endp|] m1; [|reflexivity]. cbv beta iota.
    apply bind_ext; [reflexivity|]. intros endp' m2.
    apply bind_ext; [reflexivity|].
    intros [msg|] m3; [|reflexivity]. cbv beta iota.
    apply bind_ext; [reflexivity|].
    intros [msg1|] m4; [|reflexivity]. cbv beta iota.
    apply bind_ext; [|reflexivity].
    unfold strncat_ptr. now rewrite strncat_view.
  - intros Hk Hp Hlen Hl Hpool. unfold ngx_view.
    pose proof (brokerlog_serialize_zmq_frame
                  (key ++ more1) (payload ++ more2)
                  (length key) (length payload) (length payload) m
                  (strnlen_nul_free key more1 Hk)
                  (strnlen_nul_free payload more2 Hp) Hlen Hl Hpool) as E.
    rewrite !firstn_app, !firstn_all, !Nat.sub_diag, !firstn_O, !app_nil_r
      in E.
    exact E.
Qed.

(** X2.  A NUL byte in the data cuts the copy short: the frame keeps the
    announced length [len(endpoint) + len(data)], holds the endpoint and
    the data bytes before the first NUL, and is filled with NULs from
    there on; the call still returns [NGX_OK]. *)
Theorem brokerlog_serialize_zmq_truncates
        (key pre post : list byte) (m : mem) :
  nul_free key = true ->
  nul_free pre = true ->
  Z.of_nat (length key) + Z.of_nat (length (pre ++ x00 :: post)) + 1
  < 2 ^ 64 ->
  grants (libc m) 1 = true ->
  grants (pool m) 2 = true ->
  brokerlog_serialize_zmq (ngx_string key) (ngx_string (pre ++ x00 :: post))
                          m
  = Val NGX_OK
        {| libc := skipn 1 (libc m);
           pool := skipn 2 (pool m);
           output :=
             {| len := Z.of_nat (length key)
                       + Z.of_nat (length (pre ++ x00 :: post));
                data := Some (key ++ pre
                                  ++ repeat x00 (S (length post))) |} |}.
Proof.
  intros Hk Hp Hlen Hl Hpool. unfold ngx_string.
  pose proof (strnlen_nul_free key [] Hk) as Ek. rewrite app_nil_r in Ek.
  assert (Ep : strnlen (pre ++ x00 :: post) (length (pre ++ x00 :: post))
               = Some (length pre))
    by (apply strnlen_stops; [assumption|rewrite length_app; cbn; lia]).
  pose proof (brokerlog_serialize_zmq_frame
                key (pre ++ x00 :: post)
                (length key) (length (pre ++ x00 :: post)) (length pre) m
                Ek Ep Hlen Hl Hpool) as E.
  rewrite firstn_all, firstn_app, firstn_all, Nat.sub_diag, firstn_O,
    app_nil_r in E.
  replace (length (pre ++ x00 :: post) - length pre)%nat
    with (S (length post)) in E by (rewrite length_app; cbn; lia).
  exact E.
Qed.

(** X3.  A NUL byte in the endpoint makes the call undefined: [strndup]
    stops at the NUL and hands back a block of that many bytes plus one,
    and the terminator the source then writes at index [len] falls outside
    that block.  Nothing has been written to the output by then. *)
Theorem brokerlog_serialize_zmq_endpoint_nul
        (pre post : list byte) (data_ : ngx_str_t) (m : mem) :
  nul_free pre = true ->
  grants (libc m) 1 = true ->
  brokerlog_serialize_zmq (ngx_string (pre ++ x00 :: post)) data_ m
  = Undef {| libc := skipn 1 (libc m); pool := pool m;
             output := output m |}.
Proof.
  intros Hp Hl. destruct m as [h pl o]. cbn [libc pool output] in *.
  destruct (next_alloc_grants h 0 Hl) as [Eh _].
  unfold brokerlog_serialize_zmq, ngx_string. cbn [len data].
  rewrite Nat2Z.id.
  unfold bind at 1. unfold strndup, bind.
  rewrite strnlen_stops by (assumption || (rewrite length_app; cbn; lia)).
  cbn [lift ret libc pool output]. rewrite Eh.
  rewrite firstn_app, firstn_all, Nat.sub_diag, firstn_O, app_nil_r.
  unfold store.
  replace (length (pre ++ x00 :: post) <? length (pre ++ [x00]))%nat
    with false
    by (symmetry; apply Nat.ltb_ge; rewrite !length_app; cbn; lia).
  reflexivity.
Qed.

Ltac reduce_mem :=
  cbn -[strncat store memcpy strnlen to_size_t Z.to_nat next_alloc
        repeat firstn app Z.add Z.sub].

(** X4.  Whenever [brokerlog_serialize_zmq] returns, it returns
    [NGX_ERROR] with the caller's output exactly as it was, or [NGX_OK]
    with an output whose length is the [size_t] sum of the two input
    lengths and whose data is a block of exactly that many bytes. *)
Theorem brokerlog_serialize_zmq_outcome
        (endpoint data_ : ngx_str_t) (m m' : mem) (rc : Z) :
  brokerlog_serialize_zmq endpoint data_ m = Val rc m' ->
  (rc = NGX_ERROR /\ output m' = output m)
  \/ (rc = NGX_OK
      /\ len (output m')
         = to_size_t (to_size_t (len endpoint + len data_ + 1) - 1)
      /\ exists frame,
          data (output m') = Some frame
          /\ length frame = Z.to_nat (len (output m'))).
Proof.
  destruct m as [h pl o].
  unfold brokerlog_serialize_zmq, bind, strndup, ngx_pcalloc, strncat_ptr,
    set_output_len, set_output_data, get_output, lift, bind, ret, undef.
  reduce_mem.
  destruct (data endpoint) as [eb|]; [|discriminate].
  destruct (strnlen eb (Z.to_nat (len endpoint))) as [le|]; reduce_mem;
    [|discriminate].
  destruct (next_alloc h) as [[|] h']; reduce_mem;
    [|intros H; inversion H; subst; now left].
  destruct (store _ _ _) as [endp|]; reduce_mem; [|discriminate].
  destruct (next_alloc pl) as [[|] pl']; reduce_mem;
    [|intros H; inversion H; subst; now left].
  destruct (strncat _ _ _) as [msg1|]; reduce_mem; [|discriminate].
  destruct (strncat _ _ _) as [msg2|]; reduce_mem; [|discriminate].
  destruct (next_alloc pl') as [[|] pl'']; reduce_mem.
  - destruct (memcpy _ _ _) as [copied|] eqn:E; reduce_mem; [|discriminate].
    intros H; inversion H; subst. right. cbn [output len data].
    split; [reflexivity|]. split; [reflexivity|].
    exists copied. split; [reflexivity|].
    apply memcpy_length in E. now rewrite E, repeat_length.
  - discriminate.
Qed.

Lemma brokerlog_serialize_zmq_reads_len_witness :
  nul_free Samples.stratus = true
  /\ nul_free Samples.num1 = true
  /\ Z.of_nat (length Samples.stratus) + Z.of_nat (length Samples.num1) + 1
     < 2 ^ 64
  /\ grants (libc (Samples.fresh_mem [] [])) 1 = true
  /\ grants (pool (Samples.fresh_mem [] [])) 2 = true
  /\ brokerlog_serialize_zmq (ngx_view Samples.stratus Samples.tcp_local)
                             (ngx_view Samples.num1 [x00; x41])
                             (Samples.fresh_mem [] [])
     = brokerlog_serialize_zmq (ngx_string Samples.stratus)
                               (ngx_string Samples.num1)
                               (Samples.fresh_mem [] [])
  /\ brokerlog_serialize_zmq (ngx_view Samples.stratus Samples.tcp_local)
                             (ngx_view Samples.num1 [x00; x41])
                             (Samples.fresh_mem [] [])
     = Val NGX_OK
           {| libc := []; pool := [];
              output := {| len := 18;
                           data := Some Samples.stratus_num1 |} |}.
Proof.
  split; [reflexivity|]. split; [reflexivity|]. split; [reflexivity|].
  split; [reflexivity|]. split; [reflexivity|].
  destruct (brokerlog_serialize_zmq_reads_len
              Samples.stratus Samples.num1 Samples.tcp_local [x00; x41]
              (Samples.fresh_mem [] [])) as [Same Frame].
  split; [exact Same|].
  exact (Frame eq_refl eq_refl eq_refl eq_refl eq_refl).
Defined.

Lemma brokerlog_serialize_zmq_truncates_witness :
  brokerlog_serialize_zmq (ngx_string [x2f; x61; x2f])
                          (ngx_string ([x78] ++ x00 :: [x79]))
                          (Samples.fresh_mem [] [])
  = Val NGX_OK
        {| libc := []; pool := [];
           output := {| len := 6;
                        data := Some [x2f; x61; x2f; x78; x00; x00] |} |}.
Proof.
  exact (brokerlog_serialize_zmq_truncates
           [x2f; x61; x2f] [x78] [x79] (Samples.fresh_mem [] [])
           eq_refl eq_refl eq_refl eq_refl eq_refl).
Defined.

Lemma brokerlog_serialize_zmq_endpoint_nul_witness :
  brokerlog_serialize_zmq (ngx_string ([x2f; x61] ++ x00 :: [x2f]))
                          (ngx_string Samples.num1)
                          (Samples.fresh_mem [] [])
  = Undef (Samples.fresh_mem [] []).
Proof.
  exact (brokerlog_serialize_zmq_endpoint_nul
           [x2f; x61] [x2f] (ngx_string Samples.num1)
           (Samples.fresh_mem [] []) eq_refl eq_refl).
Defined.

Lemma brokerlog_serialize_zmq_outcome_witness :
  brokerlog_serialize_zmq (ngx_string Samples.stratus)
                          (ngx_string Samples.num1)
                          (Samples.fresh_mem [] [false])
  = Val NGX_ERROR (Samples.fresh_mem [] [])
  /\ ((NGX_ERROR = NGX_ERROR
       /\ output (Samples.fresh_mem [] [])
          = output (Samples.fresh_mem [] [false]))
      \/ (NGX_ERROR = NGX_OK
          /\ len (output (Samples.fresh_mem [] []))
             = to_size_t (to_size_t (len (ngx_string Samples.stratus)
                                     + len (ngx_string Samples.num1) + 1)
                          - 1)
          /\ exists frame,
              data (output (Samples.fresh_mem [] [])) = Some frame
              /\ length frame
                 = Z.to_nat (len (output (Samples.fresh_mem [] []))))).
Proof.
  split; [reflexivity|].
  exact (brokerlog_serialize_zmq_outcome
           (ngx_string Samples.stratus) (ngx_string Samples.num1)
           (Samples.fresh_mem [] [false]) (Samples.fresh_mem [] [])
           NGX_ERROR eq_refl).
Defined.

(** X5.  A refusal of either of the first two allocations (the copy of the
    endpoint, the scratch message) is reported: the call returns
    [NGX_ERROR] and the caller's output is as it was. *)
Theorem brokerlog_serialize_zmq_refusal_reported
        (key : list byte) (data_ : ngx_str_t) (m : mem) :
  nul_free key = true ->
  grants (libc m) 1 = false \/ grants (pool m) 1 = false ->
  exists m',
    brokerlog_serialize_zmq (ngx_string key) data_ m = Val NGX_ERROR m'
    /\ output m' = output m.
Proof.
  intros Hk Hno. destruct m as [h pl o]. cbn [libc pool output] in *.
  pose proof (strnlen_nul_free key [] Hk) as Ek. rewrite app_nil_r in Ek.
  unfold brokerlog_serialize_zmq. cbn [len data ngx_string].
  rewrite !Nat2Z.id.
  unfold bind at 1. unfold strndup, bind. rewrite Ek.
  cbn [lift ret libc pool output].
  destruct h as [|[|] h]; cbn [next_alloc].
  1,2: rewrite firstn_all, store_terminator; cbn [lift ret];
       unfold ngx_pcalloc at 1; cbn [libc pool output];
       destruct pl as [|[|] pl]; cbn [next_alloc];
       try (destruct Hno as [Hno|Hno]; discriminate Hno);
       eexists; split; reflexivity.
  eexists; split; reflexivity.
Qed.

Lemma brokerlog_serialize_zmq_refusal_reported_witness :
  exists m',
    brokerlog_serialize_zmq (ngx_string Samples.stratus)
                            (ngx_string Samples.num1)
                            (Samples.fresh_mem [true] [false])
    = Val NGX_ERROR m'
    /\ output m' = output (Samples.fresh_mem [true] [false]).
Proof.
  exact (brokerlog_serialize_zmq_refusal_reported
           Samples.stratus (ngx_string Samples.num1)
           (Samples.fresh_mem [true] [false]) eq_refl (or_intror eq_refl)).
Defined.

(** ** The life cycle, further *)

Section Lifecycle_more.

Variable lib : zmq_library.
Variable NGX_DEBUG : bool.
Variable ZMQ_NGINX_LINGER : Z.
Variable ZMQ_NGINX_QUEUE_LENGTH : Z.

Ltac logged H :=
  cbn [log set_zmq_context set_zmq_socket set_ccreated set_screated
           set_iothreads];
  rewrite ?H, ?ngx_log_debug0_valid;
  cbn [ngx_log_error ngx_log_debug through_log].

Ltac socket_cases :=
  unfold bind, zmq_setsockopt, zmq_connect;
  cbn [heap calls lift ret undef];
  repeat match goal with
         | |- context [negb (?r =? 0)] =>
             let E := fresh "E" in
             destruct (Z.eqb_spec r 0) as [E|E];
             [try rewrite E; cbn [negb heap calls lift ret undef]
             |cbn [negb heap calls lift ret undef]]
         | |- context [lift (c_string ?b)] =>
             destruct (c_string b); cbn [negb heap calls lift ret undef]
         end.

Lemma set_ctx_id (cf : ngx_http_brokerlog_element_conf_t)
      (c : ngx_http_brokerlog_ctx_t) :
  cf_ctx cf = Some c -> set_ctx cf c = cf.
Proof. destruct cf; unfold set_ctx; simpl; now intros ->. Qed.

Lemma next_alloc_refused (oracle : list bool) :
  grants oracle 1 = false -> next_alloc oracle = (false, skipn 1 oracle).
Proof.
  destruct oracle as [|[|] o]; cbn; try discriminate. reflexivity.
Qed.

(** *** zmq_create_socket: what it touches *)

Lemma zmq_create_socket_footprint
      (cf : ngx_http_brokerlog_element_conf_t) (w : world) :
  socket_footprint cf w
    (zmq_create_socket lib NGX_DEBUG ZMQ_NGINX_LINGER ZMQ_NGINX_QUEUE_LENGTH
                       cf w).
Proof.
  pose proof (copy_connection_calls cf w) as Hcopy.
  assert (Quiet : forall w1 r,
             calls w1 = calls w ->
             (r = Undef w1 \/ r = Val (-1, cf) w1) ->
             socket_footprint cf w r).
  { intros w1 r E [-> | ->]; (split; [exists []; cbn [final];
      rewrite app_nil_r; now split|]); [exact I|now left]. }
  remember (zmq_create_socket lib NGX_DEBUG ZMQ_NGINX_LINGER
                              ZMQ_NGINX_QUEUE_LENGTH cf w) as r eqn:Hr.
  symmetry in Hr. revert Hr.
  unfold zmq_create_socket. unfold bind at 1.
  destruct (copy_connection cf w) as [conn w1|w1]; cbn [final] in Hcopy;
    [|intros <-; apply (Quiet w1); auto].
  unfold bind at 1.
  destruct (cf_ctx cf) as [c|] eqn:Hc; cbn [lift ret undef];
    [|intros <-; apply (Quiet w1); auto].
  destruct (log c) as [l|] eqn:Hlog;
    [|logged Hlog; unfold bind at 1; cbn [undef];
      intros <-; apply (Quiet w1); auto].
  cbv zeta. logged Hlog. unfold bind at 1. cbn [ret].
  destruct (zmq_context c) as [x|] eqn:Hx;
    [|unfold bind; cbn [ret]; intros <-; apply (Quiet w1); auto].
  destruct (Z.eqb_spec (screated c) 0) as [Es|Es].
  - unfold bind at 1 2. cbn [ret]. unfold zmq_socket_.
    destruct (answer_socket lib (calls w1) x ZMQ_PUB) as [s|] eqn:A;
      cbn [zmq_socket set_zmq_socket].
    + pose proof (Update_created c s Es) as U.
      set (c1 := set_screated (set_zmq_socket c (Some s)) 1) in *.
      socket_cases.
      all: intros <-; unfold ret; split;
        [cbn [final calls]; rewrite <- ?app_assoc, Hcopy;
         eexists; split; [reflexivity|reflexivity]
        |try exact I; right; exists c, c1, x; now repeat split].
    + unfold bind. cbn [ret]. intros <-. unfold ret. split.
      * cbn [final calls]. rewrite Hcopy. eexists; split; reflexivity.
      * right. exists c, (set_zmq_socket c None), x.
        repeat split; try assumption. now apply Update_failed.
  - socket_cases.
    all: intros <-; unfold ret; split;
      [cbn [final calls]; rewrite <- ?app_assoc, Hcopy;
       eexists; split; [reflexivity|reflexivity]
      |try exact I; right; exists c, c, x; repeat split;
       try assumption; apply Update_none].
Qed.

(** X6.  [zmq_create_socket] leaves the context side of a scope alone:
    whenever it returns, the configuration, the log reference, the context
    handle, the context flag and the thread count are what they were, and
    the socket handle and flag changed only by a [socket_update]. *)
Theorem zmq_create_socket_frame
        (cf cf' : ngx_http_brokerlog_element_conf_t)
        (c : ngx_http_brokerlog_ctx_t) (w w' : world) (rc : Z) :
  cf_ctx cf = Some c ->
  zmq_create_socket lib NGX_DEBUG ZMQ_NGINX_LINGER ZMQ_NGINX_QUEUE_LENGTH cf w
  = Val (rc, cf') w' ->
  exists c',
    cf' = set_ctx cf c'
    /\ socket_update c c'
    /\ log c' = log c
    /\ zmq_context c' = zmq_context c
    /\ ccreated c' = ccreated c
    /\ iothreads c' = iothreads c.
Proof.
  intros Hc H.
  destruct (zmq_create_socket_footprint cf w) as [_ F]. rewrite H in F.
  destruct F as [-> | (c0 & c' & x & Hc0 & Hx & U & ->)].
  - exists c. rewrite (set_ctx_id cf c Hc). repeat split. apply Update_none.
  - rewrite Hc in Hc0. inversion Hc0; subst c0.
    exists c'. split; [reflexivity|]. split; [exact U|].
    destruct U; now repeat split.
Qed.

(** X7.  [zmq_create_ctx] leaves the socket side of a scope alone: whenever
    it returns on a scope, the server, the queue length and the thread
    count of the configuration, the log reference, the socket handle and
    the socket flag are what they were. *)
Theorem zmq_create_ctx_frame
        (cf : ngx_http_brokerlog_element_conf_t)
        (c : ngx_http_brokerlog_ctx_t) (w w' : world) (rc : Z)
        (r : option ngx_http_brokerlog_element_conf_t) :
  cf_ctx cf = Some c ->
  zmq_create_ctx lib NGX_DEBUG (Some cf) w = Val (rc, r) w' ->
  exists c',
    r = Some (set_ctx cf c')
    /\ log c' = log c
    /\ zmq_socket c' = zmq_socket c
    /\ screated c' = screated c
    /\ heap w' = heap w.
Proof.
  intros Hc.
  destruct (Z.eq_dec (ccreated c) 1) as [Hflag|Hflag].
  - rewrite (zmq_create_ctx_flagged lib NGX_DEBUG cf c w Hc Hflag).
    destruct (ngx_log_debug0 NGX_DEBUG (log c) w); [|discriminate].
    intros H; inversion H; subst. exists c.
    rewrite (set_ctx_id cf c Hc). now repeat split.
  - destruct (log c) as [l|] eqn:Hlog.
    + rewrite (zmq_create_ctx_unflagged lib NGX_DEBUG cf c l w Hc Hflag Hlog).
      destruct (answer_init lib (calls w) (to_int (cf_iothreads cf)));
        intros H; inversion H; subst; eexists; split; try reflexivity;
        now repeat split.
    + unfold zmq_create_ctx. rewrite Hc.
      replace (ccreated c =? 1) with false
        by (symmetry; apply Z.eqb_neq; exact Hflag).
      unfold bind at 1.
      destruct (zmq_init_ctx_no_log lib NGX_DEBUG
                  (set_iothreads c (cf_iothreads cf)) w Hlog)
        as [E|[a E]]; rewrite E; discriminate.
Qed.

(** X8.  The first call of [zmq_create_ctx] that the library serves pins
    the scope: it returns 0 with the handle stored, the thread count
    copied from the configuration and the flag set, and every call after
    it returns 0 without calling the library or changing anything. *)
Theorem zmq_create_ctx_pins
        (cf : ngx_http_brokerlog_element_conf_t)
        (c : ngx_http_brokerlog_ctx_t) (l : ngx_log_t) (h : handle)
        (w : world) :
  cf_ctx cf = Some c ->
  ccreated c <> 1 ->
  log c = Some l ->
  answer_init lib (calls w) (to_int (cf_iothreads cf)) = Some h ->
  let c1 :=
    {| log := Some l; zmq_context := Some h; zmq_socket := zmq_socket c;
       ccreated := 1; screated := screated c;
       iothreads := cf_iothreads cf |} in
  let w1 := after_calls w [Ev_init (to_int (cf_iothreads cf)) (Some h)] in
  zmq_create_ctx lib NGX_DEBUG (Some cf) w = Val (0, Some (set_ctx cf c1)) w1
  /\ forall n,
      run lib NGX_DEBUG ZMQ_NGINX_LINGER ZMQ_NGINX_QUEUE_LENGTH
          (repeat Create_ctx n) (set_ctx cf c1) w1
      = Val (set_ctx cf c1) w1.
Proof.
  intros Hc Hflag Hlog Hinit c1 w1. split.
  - rewrite (zmq_create_ctx_unflagged lib NGX_DEBUG cf c l w Hc Hflag Hlog).
    rewrite Hinit. subst c1. unfold set_ccreated, set_zmq_context,
      set_iothreads. cbn. now rewrite Hlog.
  - induction n as [|n IH]; [reflexivity|].
    cbn [repeat run]. unfold bind at 1. unfold step. unfold bind at 1.
    rewrite (zmq_create_ctx_flagged lib NGX_DEBUG (set_ctx cf c1) c1 w1
               eq_refl eq_refl).
    cbn [log c1]. rewrite ngx_log_debug0_valid. cbn [ret snd]. exact IH.
Qed.

(** X9.  Without a configuration or without a scope, [zmq_create_ctx]
    returns 1 and calls nothing in a build without [NGX_DEBUG]; in a build
    with it, the diagnostic of that very test reads the log through the
    NULL pointer. *)
Theorem zmq_create_ctx_no_configuration
        (cf : option ngx_http_brokerlog_element_conf_t) (w : world) :
  match cf with
  | Some cf0 => cf_ctx cf0 = None
  | None => True
  end ->
  zmq_create_ctx lib NGX_DEBUG cf w
  = if NGX_DEBUG then Undef w else Val (1, cf) w.
Proof.
  intros H. unfold zmq_create_ctx, bind, ngx_log_debug0.
  destruct cf as [cf0|]; [rewrite H|]; now destruct NGX_DEBUG.
Qed.

(** X10.  [zmq_create_socket] does not test its [calloc]: when the libc
    heap refuses the copy of the destination, the [memcpy] that follows
    goes through NULL; the call is undefined before any call of the
    library, and no error is returned. *)
Theorem zmq_create_socket_calloc_refused
        (cf : ngx_http_brokerlog_element_conf_t) (w : world) :
  grants (heap w) 1 = false ->
  zmq_create_socket lib NGX_DEBUG ZMQ_NGINX_LINGER ZMQ_NGINX_QUEUE_LENGTH cf w
  = Undef {| heap := skipn 1 (heap w); calls := calls w |}.
Proof.
  intros Hno. unfold zmq_create_socket. unfold bind at 1.
  unfold copy_connection, bind, calloc.
  now rewrite (next_alloc_refused _ Hno).
Qed.

(** *** Engines over sequences of calls *)

Lemma engine_creations_app (e1 e2 : list zmq_event) :
  engine_creations (e1 ++ e2)
  = (engine_creations e1 + engine_creations e2)%nat.
Proof.
  unfold engine_creations. now rewrite filter_app, length_app.
Qed.

Lemma socket_side_no_engine (evs : list zmq_event) :
  forallb is_socket_side evs = true -> engine_creations evs = 0%nat.
Proof.
  unfold engine_creations.
  induction evs as [|e evs IH]; [reflexivity|]. cbn [forallb filter].
  intros H. apply andb_true_iff in H as [He H].
  destruct e; cbn in He |- *; try discriminate; now apply IH.
Qed.

Lemma engine_spends_nothing
      (cf : ngx_http_brokerlog_element_conf_t) (w w' : world)
      (r : result world ngx_http_brokerlog_element_conf_t) :
  calls w' = calls w ->
  r = Val cf w' \/ r = Undef w' ->
  engine_spends cf w r.
Proof.
  intros Hcalls [->| ->]; exists []; cbn [final]; rewrite app_nil_r;
    (split; [assumption|cbn; lia]).
Qed.

Lemma step_engine_spends (o : op)
      (cf : ngx_http_brokerlog_element_conf_t) (w : world) :
  engine_spends cf w
    (step lib NGX_DEBUG ZMQ_NGINX_LINGER ZMQ_NGINX_QUEUE_LENGTH o cf w).
Proof.
  destruct o; unfold step.
  - unfold bind at 1.
    destruct (cf_ctx cf) as [c|] eqn:Hc.
    + destruct (Z.eq_dec (ccreated c) 1) as [Hflag|Hflag].
      * rewrite (zmq_create_ctx_flagged lib NGX_DEBUG cf c w Hc Hflag).
        destruct (ngx_log_debug0 NGX_DEBUG (log c) w); cbn [snd ret].
        -- now apply (engine_spends_nothing cf w w); [|left].
        -- now apply (engine_spends_nothing cf w w); [|right].
      * destruct (log c) as [l|] eqn:Hlog.
        -- rewrite (zmq_create_ctx_unflagged lib NGX_DEBUG cf c l w
                      Hc Hflag Hlog).
           exists [Ev_init (to_int (cf_iothreads cf))
                           (answer_init lib (calls w)
                                        (to_int (cf_iothreads cf)))].
           unfold engines_left. rewrite Hc.
           replace (ccreated c =? 1) with false
             by (symmetry; apply Z.eqb_neq; exact Hflag).
           destruct (answer_init lib (calls w) (to_int (cf_iothreads cf)));
             cbn [snd ret final after_calls calls];
             (split; [reflexivity|]); cbn.
           ++ lia.
           ++ replace (ccreated c =? 1) with false
                by (symmetry; apply Z.eqb_neq; exact Hflag). lia.
        -- unfold zmq_create_ctx. rewrite Hc.
           replace (ccreated c =? 1) with false
             by (symmetry; apply Z.eqb_neq; exact Hflag).
           unfold bind at 1.
           destruct (zmq_init_ctx_no_log lib NGX_DEBUG
                       (set_iothreads c (cf_iothreads cf)) w Hlog)
             as [E|[a E]]; rewrite E.
           ++ now apply (engine_spends_nothing cf w w); [|right].
           ++ eexists. split; [reflexivity|].
              unfold engines_left. rewrite Hc.
              replace (ccreated c =? 1) with false
                by (symmetry; apply Z.eqb_neq; exact Hflag).
              destruct a; cbn; lia.
    + unfold zmq_create_ctx. rewrite Hc. unfold bind.
      destruct (ngx_log_debug0_cases NGX_DEBUG None w) as [E|E]; rewrite E;
        cbn [snd ret].
      * now apply (engine_spends_nothing cf w w); [|left].
      * now apply (engine_spends_nothing cf w w); [|right].
  - unfold bind.
    destruct (zmq_create_socket_footprint cf w) as [(evs & E & S) F].
    destruct (zmq_create_socket lib NGX_DEBUG ZMQ_NGINX_LINGER
                                ZMQ_NGINX_QUEUE_LENGTH cf w)
      as [[rc cf'] w'|w']; cbn [final snd ret] in *.
    + exists evs. split; [exact E|].
      rewrite (socket_side_no_engine evs S). unfold ret.
      destruct F as [-> | (c & c' & x & Hc & Hx & U & ->)]; [lia|].
      unfold engines_left. rewrite Hc. cbn [cf_ctx set_ctx].
      destruct U; cbn [ccreated set_zmq_socket set_screated]; lia.
    + exists evs. split; [exact E|].
      rewrite (socket_side_no_engine evs S). lia.
  - unfold bind.
    destruct (cf_ctx cf) as [c|] eqn:Hc; cbn [lift ret undef];
      [|now apply (engine_spends_nothing cf w w); [|right]].
    rewrite zmq_term_ctx_result.
    exists (closing c ++ terminating c). split; [reflexivity|].
    unfold engines_left. rewrite Hc.
    cbn [cf_ctx set_ctx ccreated torn_down].
    unfold closing, terminating.
    destruct (zmq_socket c), (zmq_context c); cbn; lia.
Qed.

(** X11.  One engine per scope: over any sequence of calls of
    [zmq_create_ctx], [zmq_create_socket] and [zmq_term_ctx] on a scope,
    the library creates at most one engine, and none once the context
    flag reads 1, teardown included. *)
Theorem run_creates_one_engine (ops : list op) :
  forall (cf : ngx_http_brokerlog_element_conf_t) (w : world),
    exists evs,
      calls (final (run lib NGX_DEBUG ZMQ_NGINX_LINGER
                        ZMQ_NGINX_QUEUE_LENGTH ops cf w))
      = calls w ++ evs
      /\ (engine_creations evs <= engines_left cf <= 1)%nat.
Proof.
  assert (Hle : forall cf, (engines_left cf <= 1)%nat).
  { intros cf. unfold engines_left.
    destruct (cf_ctx cf) as [c|]; [destruct (ccreated c =? 1)|]; lia. }
  assert (H : forall cf w,
             engine_spends cf w
               (run lib NGX_DEBUG ZMQ_NGINX_LINGER ZMQ_NGINX_QUEUE_LENGTH
                    ops cf w)).
  { induction ops as [|o ops IH]; intros cf w.
    - now apply (engine_spends_nothing cf w w); [|left].
    - cbn [run]. unfold bind.
      destruct (step_engine_spends o cf w) as (e1 & Hcalls & Hle1).
      destruct (step lib NGX_DEBUG ZMQ_NGINX_LINGER ZMQ_NGINX_QUEUE_LENGTH
                     o cf w)
        as [cf' w'|w']; cbn [final] in Hcalls.
      + destruct (IH cf' w') as (e2 & Hcalls2 & Hle2).
        exists (e1 ++ e2). split.
        * now rewrite Hcalls2, Hcalls, app_assoc.
        * rewrite engine_creations_app. lia.
      + exists e1. now split. }
  intros cf w. destruct (H cf w) as (evs & E & L).
  exists evs. split; [exact E|]. specialize (Hle cf). lia.
Qed.

(** *** Handles and flags agree *)

Lemma step_coherent (o : op)
      (cf cf' : ngx_http_brokerlog_element_conf_t) (w w' : world) :
  coherent_conf cf = true ->
  step lib NGX_DEBUG ZMQ_NGINX_LINGER ZMQ_NGINX_QUEUE_LENGTH o cf w
  = Val cf' w' ->
  coherent_conf cf' = true.
Proof.
  intros Hco. destruct o; unfold step.
  - unfold bind at 1.
    destruct (cf_ctx cf) as [c|] eqn:Hc.
    + destruct (Z.eq_dec (ccreated c) 1) as [Hflag|Hflag].
      * rewrite (zmq_create_ctx_flagged lib NGX_DEBUG cf c w Hc Hflag).
        destruct (ngx_log_debug0 NGX_DEBUG (log c) w); cbn [snd ret];
          [|discriminate].
        intros H; inversion H; subst. exact Hco.
      * unfold coherent_conf in Hco. rewrite Hc in Hco.
        unfold coherent in Hco.
        replace (ccreated c =? 1) with false in Hco
          by (symmetry; apply Z.eqb_neq; exact Hflag).
        rewrite orb_false_r in Hco. apply andb_true_iff in Hco as [Hx Hs].
        rewrite Hx in Hs. cbn [negb andb] in Hs. rewrite orb_false_r in Hs.
        destruct (log c) as [l|] eqn:Hlog.
        -- rewrite (zmq_create_ctx_unflagged lib NGX_DEBUG cf c l w
                      Hc Hflag Hlog).
           destruct (answer_init lib (calls w) (to_int (cf_iothreads cf)));
             cbn [snd ret]; intros H; inversion H; subst;
             unfold coherent_conf, coherent; cbn; now rewrite Hs.
        -- unfold zmq_create_ctx. rewrite Hc.
           replace (ccreated c =? 1) with false
             by (symmetry; apply Z.eqb_neq; exact Hflag).
           unfold bind at 1.
           destruct (zmq_init_ctx_no_log lib NGX_DEBUG
                       (set_iothreads c (cf_iothreads cf)) w Hlog)
             as [E|[a E]]; rewrite E; discriminate.
    + unfold zmq_create_ctx. rewrite Hc. unfold bind.
      destruct (ngx_log_debug0_cases NGX_DEBUG None w) as [E|E]; rewrite E;
        cbn [snd ret]; [|discriminate].
      intros H; inversion H; subst. exact Hco.
  - unfold bind.
    destruct (zmq_create_socket_footprint cf w) as [_ F].
    destruct (zmq_create_socket lib NGX_DEBUG ZMQ_NGINX_LINGER
                                ZMQ_NGINX_QUEUE_LENGTH cf w)
      as [[rc cf''] w''|w'']; cbn [snd ret]; [|discriminate].
    intros H; inversion H; subst.
    destruct F as [-> | (c & c' & x & Hc & Hx & U & ->)]; [exact Hco|].
    unfold coherent_conf in *. rewrite Hc in Hco. cbn [cf_ctx set_ctx].
    unfold coherent in *. apply andb_true_iff in Hco as [H1 H2].
    destruct U; cbn [zmq_context zmq_socket ccreated screated
                       set_zmq_socket set_screated is_null];
      rewrite ?H1, ?H2, ?Hx; reflexivity.
  - unfold bind.
    destruct (cf_ctx cf) as [c|] eqn:Hc; cbn [lift ret undef];
      [|discriminate].
    rewrite zmq_term_ctx_result. intros H; inversion H; subst. reflexivity.
Qed.

(** X12.  The handles and the flags of a scope stay in agreement over any
    sequence of life-cycle calls that returns: a context handle is held
    only with the context flag set, and a socket handle only together
    with a context handle and with the socket flag set. *)
Theorem run_keeps_coherent (ops : list op) :
  forall (cf cf' : ngx_http_brokerlog_element_conf_t) (w w' : world),
    coherent_conf cf = true ->
    run lib NGX_DEBUG ZMQ_NGINX_LINGER ZMQ_NGINX_QUEUE_LENGTH ops cf w
    = Val cf' w' ->
    coherent_conf cf' = true.
Proof.
  induction ops as [|o ops IH]; intros cf cf' w w' Hco; cbn [run].
  - intros H; inversion H; subst. exact Hco.
  - unfold bind.
    destruct (step lib NGX_DEBUG ZMQ_NGINX_LINGER ZMQ_NGINX_QUEUE_LENGTH
                   o cf w) as [cf1 w1|w1] eqn:S; [|discriminate].
    apply (IH cf1 cf' w1 w').
    exact (step_coherent o cf cf1 w w1 Hco S).
Qed.

(** *** A whole session *)

Lemma zmq_create_socket_served
      (cf : ngx_http_brokerlog_element_conf_t)
      (c : ngx_http_brokerlog_ctx_t) (x : handle) (l : ngx_log_t)
      (addr : list byte) (w : world) :
  always_up lib ->
  cf_ctx cf = Some c ->
  zmq_context c = Some x ->
  screated c = 0 ->
  log c = Some l ->
  connection (cf_server cf) = ngx_string addr ->
  nul_free addr = true ->
  Z.of_nat (length addr) + 1 < 2 ^ 64 ->
  grants (heap w) 1 = true ->
  exists s,
    zmq_create_socket lib NGX_DEBUG ZMQ_NGINX_LINGER ZMQ_NGINX_QUEUE_LENGTH
                      cf w
    = Val (0, set_ctx cf (set_screated (set_zmq_socket c (Some s)) 1))
          {| heap := skipn 1 (heap w);
             calls :=
               calls w
               ++ [Ev_socket x ZMQ_PUB (Some s);
                   Ev_setsockopt (Some s) ZMQ_LINGER
                                 (to_int ZMQ_NGINX_LINGER) 4 0;
                   Ev_setsockopt (Some s) ZMQ_HWM
                                 (queue_capacity ZMQ_NGINX_QUEUE_LENGTH
                                                 (cf_qlen cf)) 8 0;
                   Ev_connect (Some s) addr 0] |}.
Proof.
  intros (_ & As & Ao & Ac) Hc Hx Hs Hlog Hname Hfree Hlen Hheap.
  unfold zmq_create_socket. unfold bind at 1.
  rewrite (copy_connection_ok cf addr w Hname Hlen Hheap).
  unfold bind at 1. rewrite Hc. cbn [lift ret]. cbv zeta.
  rewrite capacity_applied, Hx, Hs. cbn [Z.eqb].
  rewrite (c_string_terminated addr Hfree).
  logged Hlog. unfold bind at 1 2 3. cbn [ret]. unfold zmq_socket_.
  cbn [heap calls].
  destruct (answer_socket lib (calls w) x ZMQ_PUB) as [s|] eqn:A;
    [|now apply As in A].
  exists s. cbn [zmq_socket set_zmq_socket set_screated].
  logged Hlog.
  unfold bind, zmq_setsockopt, zmq_connect. cbn [heap calls lift ret].
  repeat (first [rewrite Ao | rewrite Ac];
          cbn [Z.eqb negb]; cbv beta; cbn [heap calls]).
  unfold ret. rewrite <- !app_assoc. reflexivity.
Qed.

(** X13.  A session served by the library closes what it opened, in the
    order the library asks for: on a fresh scope, [zmq_create_ctx],
    [zmq_create_socket] and [zmq_term_ctx] in a row initialise one engine,
    create one socket on it, set linger then the queue capacity, connect
    to the destination, then close that socket and only then terminate
    that engine; the scope ends with its three references NULL and both
    flags set. *)
Theorem session_closes_what_it_opened
        (cf : ngx_http_brokerlog_element_conf_t)
        (c : ngx_http_brokerlog_ctx_t) (l : ngx_log_t)
        (addr : list byte) (w : world) :
  always_up lib ->
  cf_ctx cf = Some c ->
  ccreated c <> 1 ->
  screated c = 0 ->
  log c = Some l ->
  connection (cf_server cf) = ngx_string addr ->
  nul_free addr = true ->
  Z.of_nat (length addr) + 1 < 2 ^ 64 ->
  grants (heap w) 1 = true ->
  exists x s,
    run lib NGX_DEBUG ZMQ_NGINX_LINGER ZMQ_NGINX_QUEUE_LENGTH
        [Create_ctx; Create_socket; Term_ctx] cf w
    = Val (set_ctx cf {| log := None; zmq_context := None;
                         zmq_socket := None; ccreated := 1; screated := 1;
                         iothreads := cf_iothreads cf |})
          {| heap := skipn 1 (heap w);
             calls :=
               calls w
               ++ [Ev_init (to_int (cf_iothreads cf)) (Some x);
                   Ev_socket x ZMQ_PUB (Some s);
                   Ev_setsockopt (Some s) ZMQ_LINGER
                                 (to_int ZMQ_NGINX_LINGER) 4 0;
                   Ev_setsockopt (Some s) ZMQ_HWM
                                 (queue_capacity ZMQ_NGINX_QUEUE_LENGTH
                                                 (cf_qlen cf)) 8 0;
                   Ev_connect (Some s) addr 0;
                   Ev_close s;
                   Ev_term x] |}.
Proof.
  intros Hup Hc Hflag Hs Hlog Hname Hfree Hlen Hheap.
  pose proof Hup as (Ai & _).
  destruct (answer_init lib (calls w) (to_int (cf_iothreads cf)))
    as [x|] eqn:A; [|now apply Ai in A].
  set (c1 := set_ccreated
               (set_zmq_context (set_iothreads c (cf_iothreads cf))
                                (Some x)) 1).
  set (w1 := after_calls w [Ev_init (to_int (cf_iothreads cf)) (Some x)]).
  destruct (zmq_create_socket_served (set_ctx cf c1) c1 x l addr w1 Hup
              eq_refl eq_refl Hs Hlog Hname Hfree Hlen Hheap) as [s E].
  exists x, s.
  cbn [run]. unfold bind at 1. unfold step at 1. unfold bind at 1.
  rewrite (zmq_create_ctx_unflagged lib NGX_DEBUG cf c l w Hc Hflag Hlog), A.
  cbn [snd ret]. fold c1. fold w1.
  unfold bind at 1. unfold step at 1. unfold bind at 1. rewrite E.
  cbn [snd ret]. unfold bind at 1. unfold step. unfold bind at 1 2.
  cbn [cf_ctx set_ctx lift ret]. rewrite zmq_term_ctx_result.
  unfold ret, closing, terminating, torn_down, after_calls, set_ctx.
  cbn. rewrite <- !app_assoc. reflexivity.
Qed.

(** *** The destination as the library sees it *)

Lemma ensureSocket_steps_destination
      (h : list zmq_event) (l q : Z) (context : handle) (addr : list byte)
      (c c' : ngx_http_brokerlog_ctx_t) (evs : list zmq_event) (rc : Z) :
  ensureSocket_steps lib h l q context addr c evs rc c' ->
  forall s a r, In (Ev_connect s a r) evs -> a = addr.
Proof.
  intros H.
  inversion H as [E A|e c1 r P A Hr|e c1 r P A1 A Hr|e c1 r P A1 A2 A Hr
                  |e c1 P A1 A2 A];
    try (inversion P as [s0 F0 B0|F0]); cbn [app].
  all: clear H; try clear P;
    repeat match goal with
           | H : answer_socket _ _ _ _ = _ |- _ => clear H
           | H : answer_setsockopt _ _ _ _ _ _ = _ |- _ => clear H
           | H : answer_connect _ _ _ _ = _ |- _ => clear H
           end;
    subst; cbn [app]; intros;
    repeat match goal with
           | H : In _ (_ :: _) |- _ => destruct H as [H|H]
           | H : In _ [] |- _ => destruct H
           | H : Ev_socket _ _ _ = _ |- _ => discriminate H
           | H : Ev_setsockopt _ _ _ _ _ = _ |- _ => discriminate H
           | H : Ev_connect _ _ _ = _ |- _ => inversion H; clear H; subst
           end;
    reflexivity.
Qed.

(** X14.  The destination is handed to the library as a C string: when
    the configured connection holds a NUL byte, [zmq_create_socket]
    connects to the bytes before the first NUL only, whatever follows
    it. *)
Theorem zmq_create_socket_destination_cut
        (cf : ngx_http_brokerlog_element_conf_t)
        (c : ngx_http_brokerlog_ctx_t) (x : handle) (l : ngx_log_t)
        (pre post : list byte) (w : world) :
  cf_ctx cf = Some c ->
  zmq_context c = Some x ->
  log c = Some l ->
  connection (cf_server cf) = ngx_string (pre ++ x00 :: post) ->
  nul_free pre = true ->
  Z.of_nat (length (pre ++ x00 :: post)) + 1 < 2 ^ 64 ->
  grants (heap w) 1 = true ->
  exists evs rc cf',
    zmq_create_socket lib NGX_DEBUG ZMQ_NGINX_LINGER ZMQ_NGINX_QUEUE_LENGTH
                      cf w
    = Val (rc, cf') {| heap := skipn 1 (heap w); calls := calls w ++ evs |}
    /\ forall s a r, In (Ev_connect s a r) evs -> a = pre.
Proof.
  intros Hc Hx Hlog Hname Hfree Hlen Hheap.
  assert (Hcut : c_string ((pre ++ x00 :: post) ++ [x00]) = Some pre).
  { unfold c_string. rewrite <- app_assoc. cbn [app].
    rewrite (strlen_nul_free pre (post ++ [x00]) Hfree). cbn [option_map].
    now rewrite firstn_app, firstn_all, Nat.sub_diag, firstn_O,
      app_nil_r. }
  destruct (zmq_create_socket_steps lib NGX_DEBUG ZMQ_NGINX_LINGER
              ZMQ_NGINX_QUEUE_LENGTH cf c x l w _ _ pre Hc Hx Hlog
              (copy_connection_ok cf _ w Hname Hlen Hheap) Hcut)
    as (evs & rc & c' & E & S).
  exists evs, rc, (set_ctx cf c'). split; [exact E|].
  exact (ensureSocket_steps_destination _ _ _ _ _ _ _ _ _ S).
Qed.

End Lifecycle_more.

(** ** The further statements at sample scopes *)

Lemma zmq_create_socket_frame_witness :
  cf_ctx (Samples.conf_of Samples.context_ctx) = Some Samples.context_ctx
  /\ zmq_create_socket Samples.lib_up false 0 1000
                       (Samples.conf_of Samples.context_ctx) Samples.quiet
     = Val (0, set_ctx (Samples.conf_of Samples.context_ctx)
                       Samples.ready_ctx)
           (after_calls Samples.quiet More_samples.socket_calls)
  /\ exists c',
      set_ctx (Samples.conf_of Samples.context_ctx) Samples.ready_ctx
      = set_ctx (Samples.conf_of Samples.context_ctx) c'
      /\ socket_update Samples.context_ctx c'
      /\ log c' = log Samples.context_ctx
      /\ zmq_context c' = zmq_context Samples.context_ctx
      /\ ccreated c' = ccreated Samples.context_ctx
      /\ iothreads c' = iothreads Samples.context_ctx.
Proof.
  split; [reflexivity|]. split; [reflexivity|].
  exact (zmq_create_socket_frame
           Samples.lib_up false 0 1000
           (Samples.conf_of Samples.context_ctx)
           (set_ctx (Samples.conf_of Samples.context_ctx) Samples.ready_ctx)
           Samples.context_ctx Samples.quiet
           (after_calls Samples.quiet More_samples.socket_calls) 0
           eq_refl eq_refl).
Defined.

Lemma zmq_create_ctx_frame_witness :
  cf_ctx (Samples.conf_of Samples.fresh_ctx) = Some Samples.fresh_ctx
  /\ zmq_create_ctx Samples.lib_up false
                    (Some (Samples.conf_of Samples.fresh_ctx)) Samples.quiet
     = Val (0, Some (set_ctx (Samples.conf_of Samples.fresh_ctx)
                             Samples.context_ctx))
           (after_calls Samples.quiet [Ev_init 1 (Some 1%positive)])
  /\ exists c',
      Some (set_ctx (Samples.conf_of Samples.fresh_ctx) Samples.context_ctx)
      = Some (set_ctx (Samples.conf_of Samples.fresh_ctx) c')
      /\ log c' = log Samples.fresh_ctx
      /\ zmq_socket c' = zmq_socket Samples.fresh_ctx
      /\ screated c' = screated Samples.fresh_ctx
      /\ heap (after_calls Samples.quiet [Ev_init 1 (Some 1%positive)])
         = heap Samples.quiet.
Proof.
  split; [reflexivity|]. split; [reflexivity|].
  exact (zmq_create_ctx_frame
           Samples.lib_up false (Samples.conf_of Samples.fresh_ctx)
           Samples.fresh_ctx Samples.quiet
           (after_calls Samples.quiet [Ev_init 1 (Some 1%positive)]) 0
           (Some (set_ctx (Samples.conf_of Samples.fresh_ctx)
                          Samples.context_ctx))
           eq_refl eq_refl).
Defined.

Lemma zmq_create_ctx_pins_witness :
  cf_ctx (Samples.conf_of Samples.fresh_ctx) = Some Samples.fresh_ctx
  /\ ccreated Samples.fresh_ctx <> 1
  /\ log Samples.fresh_ctx = Some 7%positive
  /\ answer_init Samples.lib_up (calls Samples.quiet)
                 (to_int (cf_iothreads (Samples.conf_of Samples.fresh_ctx)))
     = Some 1%positive
  /\ zmq_create_ctx Samples.lib_up false
                    (Some (Samples.conf_of Samples.fresh_ctx)) Samples.quiet
     = Val (0, Some (set_ctx (Samples.conf_of Samples.fresh_ctx)
                             Samples.context_ctx))
           (after_calls Samples.quiet [Ev_init 1 (Some 1%positive)])
  /\ run Samples.lib_up false 0 1000 (repeat Create_ctx 3)
         (set_ctx (Samples.conf_of Samples.fresh_ctx) Samples.context_ctx)
         (after_calls Samples.quiet [Ev_init 1 (Some 1%positive)])
     = Val (set_ctx (Samples.conf_of Samples.fresh_ctx) Samples.context_ctx)
           (after_calls Samples.quiet [Ev_init 1 (Some 1%positive)]).
Proof.
  assert (Hflag : ccreated Samples.fresh_ctx <> 1) by discriminate.
  split; [reflexivity|]. split; [exact Hflag|]. split; [reflexivity|].
  split; [reflexivity|].
  destruct (zmq_create_ctx_pins
              Samples.lib_up false 0 1000
              (Samples.conf_of Samples.fresh_ctx) Samples.fresh_ctx
              7%positive 1%positive Samples.quiet
              eq_refl Hflag eq_refl eq_refl) as [First Later].
  split; [exact First | exact (Later 3%nat)].
Defined.

Lemma zmq_create_ctx_no_configuration_witness :
  cf_ctx More_samples.no_scope = None
  /\ zmq_create_ctx Samples.lib_up true (Some More_samples.no_scope)
                    Samples.quiet
     = Undef Samples.quiet
  /\ zmq_create_ctx Samples.lib_up false (Some More_samples.no_scope)
                    Samples.quiet
     = Val (1, Some More_samples.no_scope) Samples.quiet.
Proof.
  split; [reflexivity|]. split.
  - exact (zmq_create_ctx_no_configuration
             Samples.lib_up true (Some More_samples.no_scope) Samples.quiet
             eq_refl).
  - exact (zmq_create_ctx_no_configuration
             Samples.lib_up false (Some More_samples.no_scope) Samples.quiet
             eq_refl).
Defined.

Lemma zmq_create_socket_calloc_refused_witness :
  grants (heap More_samples.refusing) 1 = false
  /\ zmq_create_socket Samples.lib_up false 0 1000
                       (Samples.conf_of Samples.ready_ctx)
                       More_samples.refusing
     = Undef Samples.quiet.
Proof.
  split; [reflexivity|].
  exact (zmq_create_socket_calloc_refused
           Samples.lib_up false 0 1000 (Samples.conf_of Samples.ready_ctx)
           More_samples.refusing eq_refl).
Defined.

Lemma run_keeps_coherent_witness :
  coherent_conf (Samples.conf_of Samples.fresh_ctx) = true
  /\ run Samples.lib_up false 0 1000 [Create_ctx; Create_socket]
         (Samples.conf_of Samples.fresh_ctx) Samples.quiet
     = Val (set_ctx (Samples.conf_of Samples.fresh_ctx) Samples.ready_ctx)
           (after_calls Samples.quiet
              (Ev_init 1 (Some 1%positive) :: More_samples.socket_calls))
  /\ coherent_conf
       (set_ctx (Samples.conf_of Samples.fresh_ctx) Samples.ready_ctx)
     = true.
Proof.
  split; [reflexivity|]. split; [reflexivity|].
  exact (run_keeps_coherent
           Samples.lib_up false 0 1000 [Create_ctx; Create_socket]
           (Samples.conf_of Samples.fresh_ctx)
           (set_ctx (Samples.conf_of Samples.fresh_ctx) Samples.ready_ctx)
           Samples.quiet
           (after_calls Samples.quiet
              (Ev_init 1 (Some 1%positive) :: More_samples.socket_calls))
           eq_refl eq_refl).
Defined.

Lemma session_closes_what_it_opened_witness :
  always_up Samples.lib_up
  /\ cf_ctx (Samples.conf_of Samples.fresh_ctx) = Some Samples.fresh_ctx
  /\ ccreated Samples.fresh_ctx <> 1
  /\ screated Samples.fresh_ctx = 0
  /\ log Samples.fresh_ctx = Some 7%positive
  /\ connection (cf_server (Samples.conf_of Samples.fresh_ctx))
     = ngx_string Samples.tcp_local
  /\ nul_free Samples.tcp_local = true
  /\ Z.of_nat (length Samples.tcp_local) + 1 < 2 ^ 64
  /\ grants (heap Samples.quiet) 1 = true
  /\ exists x s,
      run Samples.lib_up false 0 1000 [Create_ctx; Create_socket; Term_ctx]
          (Samples.conf_of Samples.fresh_ctx) Samples.quiet
      = Val (set_ctx (Samples.conf_of Samples.fresh_ctx)
                     {| log := None; zmq_context := None;
                        zmq_socket := None; ccreated := 1; screated := 1;
                        iothreads := 1 |})
            {| heap := [];
               calls :=
                 [Ev_init 1 (Some x);
                  Ev_socket x ZMQ_PUB (Some s);
                  Ev_setsockopt (Some s) ZMQ_LINGER 0 4 0;
                  Ev_setsockopt (Some s) ZMQ_HWM 1000 8 0;
                  Ev_connect (Some s) Samples.tcp_local 0;
                  Ev_close s;
                  Ev_term x] |}.
Proof.
  assert (Hup : always_up Samples.lib_up)
    by (repeat split; intros; discriminate).
  assert (Hflag : ccreated Samples.fresh_ctx <> 1) by discriminate.
  assert (Hlen : Z.of_nat (length Samples.tcp_local) + 1 < 2 ^ 64)
    by reflexivity.
  split; [exact Hup|]. split; [reflexivity|]. split; [exact Hflag|].
  split; [reflexivity|]. split; [reflexivity|]. split; [reflexivity|].
  split; [reflexivity|]. split; [exact Hlen|]. split; [reflexivity|].
  exact (session_closes_what_it_opened
           Samples.lib_up false 0 1000 (Samples.conf_of Samples.fresh_ctx)
           Samples.fresh_ctx 7%positive Samples.tcp_local Samples.quiet
           Hup eq_refl Hflag eq_refl eq_refl eq_refl eq_refl Hlen eq_refl).
Defined.

Lemma zmq_create_socket_destination_cut_witness :
  cf_ctx More_samples.cut_conf = Some Samples.context_ctx
  /\ zmq_context Samples.context_ctx = Some 1%positive
  /\ log Samples.context_ctx = Some 7%positive
  /\ connection (cf_server More_samples.cut_conf)
     = ngx_string (Samples.tcp_local ++ x00 :: Samples.stratus)
  /\ nul_free Samples.tcp_local = true
  /\ Z.of_nat (length (Samples.tcp_local ++ x00 :: Samples.stratus)) + 1
     < 2 ^ 64
  /\ grants (heap Samples.quiet) 1 = true
  /\ exists evs rc cf',
      zmq_create_socket Samples.lib_up false 0 1000 More_samples.cut_conf
                        Samples.quiet
      = Val (rc, cf')
            {| heap := skipn 1 (heap Samples.quiet);
               calls := calls Samples.quiet ++ evs |}
      /\ forall s a r, In (Ev_connect s a r) evs -> a = Samples.tcp_local.
Proof.
  assert (Hlen : Z.of_nat (length (Samples.tcp_local
                                   ++ x00 :: Samples.stratus)) + 1
                 < 2 ^ 64) by reflexivity.
  split; [reflexivity|]. split; [reflexivity|]. split; [reflexivity|].
  split; [reflexivity|]. split; [reflexivity|]. split; [exact Hlen|].
  split; [reflexivity|].
  exact (zmq_create_socket_destination_cut
           Samples.lib_up false 0 1000 More_samples.cut_conf
           Samples.context_ctx 1%positive 7%positive
           Samples.tcp_local Samples.stratus Samples.quiet
           eq_refl eq_refl eq_refl eq_refl eq_refl Hlen eq_refl).
Defined.
